(** * Response middleware of [apps/common/middleware.py]

    A shallow embedding of the five [process_response] handlers and of
    the [safe_query_string] context manager, followed by the properties
    of the handlers.

    The handlers run against three pieces of mutable state: the request
    object they are handed (its [META] dictionary is rewritten and
    restored by [safe_query_string]), the database behind the [User],
    [Group] and [GroupAlias] managers, and the debug log.  The embedding
    threads the three through a state-and-exception monad; a computation
    ends with the value it returns or the exception it raises, and with
    the state it leaves behind in both cases.

    What the file imports is kept apart from what it defines:
    - [is_valid_path], [reverse] and [iri_to_uri] are functions of the
      framework and stay abstract (class [Django]);
    - the response classes and the model managers are described by the
      operations the handlers use on them;
    - [error_page] belongs to the project but not to this file; its
      definition below says where it comes from. *)

From stdpp Require Import base decidable option list strings gmap.
From Stdlib Require Import ZArith Ascii.

Local Open Scope Z_scope.

(** ** Python string operations used by the handlers *)

Module Py.

(** [s.startswith(prefix)] *)
Fixpoint startswith (s prefix : string) {struct prefix} : bool :=
  match prefix with
  | "" => true
  | String p prefix' =>
      match s with
      | "" => false
      | String c s' => bool_decide (c = p) && startswith s' prefix'
      end
  end.

(** [s.endswith(suffix)]: some tail of [s] is [suffix]. *)
Fixpoint endswith (s suffix : string) : bool :=
  bool_decide (s = suffix) ||
  match s with
  | "" => false
  | String _ s' => endswith s' suffix
  end.

(** [s[1:]] *)
Definition slice_from_1 (s : string) : string :=
  match s with
  | "" => ""
  | String _ s' => s'
  end.

(** [s[:-1]] *)
Fixpoint slice_to_last (s : string) : string :=
  match s with
  | "" => ""
  | String c s' =>
      match s' with
      | "" => ""
      | String _ _ => String c (slice_to_last s')
      end
  end.

(** [s.lstrip(c)] for a one-character [c] *)
Fixpoint lstrip (c : ascii) (s : string) : string :=
  match s with
  | "" => ""
  | String a s' => if bool_decide (a = c) then lstrip c s' else s
  end.

(** [s.rstrip(c)] for a one-character [c] *)
Fixpoint rstrip (c : ascii) (s : string) : string :=
  match s with
  | "" => ""
  | String a s' =>
      match rstrip c s' with
      | "" => if bool_decide (a = c) then "" else String a ""
      | String _ _ as r => String a r
      end
  end.

(** [s.strip(c)] for a one-character [c] *)
Definition strip (c : ascii) (s : string) : string :=
  rstrip c (lstrip c s).

(** ASCII case folding, the comparison behind an [iexact] lookup. *)
Definition lower_char (a : ascii) : ascii :=
  let n := N_of_ascii a in
  if ((65 <=? n) && (n <=? 90))%N then ascii_of_N (n + 32) else a.

Fixpoint lower (s : string) : string :=
  match s with
  | "" => ""
  | String a s' => String (lower_char a) (lower s')
  end.

Definition is_digit (a : ascii) : bool :=
  let n := N_of_ascii a in ((48 <=? n) && (n <=? 57))%N.

(** Every character of [s] satisfies [p]. *)
Fixpoint all_chars (p : ascii → bool) (s : string) : bool :=
  match s with
  | "" => true
  | String a s' => p a && all_chars p s'
  end.

(** Longest prefix of [s] whose characters satisfy [p], and the rest. *)
Fixpoint span (p : ascii → bool) (s : string) : string * string :=
  match s with
  | "" => ("", "")
  | String a s' =>
      if p a then let '(l, r) := span p s' in (String a l, r)
      else ("", s)
  end.

(** [s] with [prefix] removed from its front, when it is there. *)
Fixpoint strip_prefix (prefix s : string) : option string :=
  match prefix with
  | "" => Some s
  | String p prefix' =>
      match s with
      | "" => None
      | String c s' =>
          if bool_decide (c = p) then strip_prefix prefix' s' else None
      end
  end.

End Py.

(** ** The two regular expressions *)

Definition not_slash (a : ascii) : bool := negb (bool_decide (a = "/"%char)).

(** [re.match('^/group/(?P<id>\d+)-(?P<url>[^/]+)$', s)]: the groups
    [(id, url)] of the match, or [None].  [\d+] is greedy and must be
    followed by the hyphen, so [id] is the whole run of digits after
    ["/group/"]; [[^/]+] also accepts a newline, so the [$] anchor only
    ever matches at the very end of [s]. *)
Definition match_old_group_url (s : string) : option (string * string) :=
  match Py.strip_prefix "/group/" s with
  | None => None
  | Some rest =>
      let '(id, rest') := Py.span Py.is_digit rest in
      match id, rest' with
      | String _ _, String a url =>
          if bool_decide (a = "-"%char) && bool_decide (url ≠ "")
             && Py.all_chars not_slash url
          then Some (id, url) else None
      | _, _ => None
      end
  end.

(** [re.match('^/group/(?P<url>[^/]+)$', s)]: the group [url] of the
    match, or [None]. *)
Definition match_group_url (s : string) : option string :=
  match Py.strip_prefix "/group/" s with
  | None => None
  | Some url =>
      if bool_decide (url ≠ "") && Py.all_chars not_slash url
      then Some url else None
  end.

(** ** Framework objects *)

(** The response classes of [django.http] the handlers test for or
    build, and classes derived from them. *)
Module Cls.
Inductive t : Type :=
| HttpResponse
| HttpResponseRedirect
| HttpResponsePermanentRedirect
| HttpResponseNotFound
| HttpResponseForbidden
| HttpResponseNotAllowed
| HttpResponseServerError
| Derived (name : string) (base : t).

Global Instance eq_dec : EqDecision t.
Proof. solve_decision. Defined.

(** [issubclass(c, k)]: every class of [django.http] derives from
    [HttpResponse]. *)
Fixpoint issubclass (c k : t) : bool :=
  bool_decide (c = k) ||
  match c with
  | HttpResponse => false
  | Derived _ base => issubclass base k
  | _ => bool_decide (k = HttpResponse)
  end.
End Cls.

Inductive Content : Type :=
| Text (body : string)
| Template (number : Z).

(** A response: its class, its [status_code], the URL it redirects to
    when it was built as a redirect, and its body. *)
Record HttpResponse : Type := mkResponse {
  response_class : Cls.t;
  status_code : Z;
  redirect_to : option string;
  content : Content
}.

(** [isinstance(response, (k1, ..., kn))] *)
Definition isinstance (response : HttpResponse) (classes : list Cls.t) : bool :=
  existsb (Cls.issubclass (response_class response)) classes.

(** [HttpResponseRedirect(url)] *)
Definition HttpResponseRedirect (url : string) : HttpResponse :=
  {| response_class := Cls.HttpResponseRedirect; status_code := 302;
     redirect_to := Some url; content := Text "" |}.

(** [HttpResponsePermanentRedirect(url)] *)
Definition HttpResponsePermanentRedirect (url : string) : HttpResponse :=
  {| response_class := Cls.HttpResponsePermanentRedirect; status_code := 301;
     redirect_to := Some url; content := Text "" |}.

Record User : Type := mkUser { username : string }.

Module Group.
Record t : Type := mk { name : string; url : string }.
End Group.

Module GroupAlias.
(** [alias] is the related [Group], as the attribute access
    [group_alias.alias] yields it. *)
Record t : Type := mk { name : string; url : string; alias : Group.t }.
End GroupAlias.

(** [request.user] *)
Inductive RequestUser : Type :=
| AnonymousUser
| LoggedIn (u : User).

Definition is_authenticated (u : RequestUser) : bool :=
  match u with
  | AnonymousUser => false
  | LoggedIn _ => true
  end.

(** The attributes of the request the handlers read.  [GET] is the
    query dictionary ([request.GET], which Django parses from
    [META['QUERY_STRING']] when it is first read and which is true when
    it has a key), [META] the WSGI environment, where a key may be
    missing. *)
Record HttpRequest : Type := mkRequest {
  path : string;
  path_info : string;
  GET : gmap string (list string);
  META : gmap string string;
  user : RequestUser
}.

Definition set_META (f : gmap string string → gmap string string)
    (r : HttpRequest) : HttpRequest :=
  {| path := path r; path_info := path_info r; GET := GET r;
     META := f (META r); user := user r |}.

(** The rows behind [User.objects], [Group.objects] and
    [GroupAlias.objects]. *)
Record Database : Type := mkDatabase {
  User_objects : list User;
  Group_objects : list Group.t;
  GroupAlias_objects : list GroupAlias.t
}.

(** The functions of the framework the handlers call.  [reverse]
    answers [None] where Django raises [NoReverseMatch]. *)
Class Django : Type := {
  is_valid_path : string → bool;
  reverse : string → list string → option string;
  iri_to_uri : string → string
}.

(** Modelled from the spec: [error_page] is defined in the project's
    [urls] module, which is not among the sources; the handler only
    imports it.  The spec calls its result "a generic error page" and
    has the handlers pass HTTP status codes through, and the handler's
    docstring says the page uses the error template it is given
    ([500.html]).  So the page is the response that renders the numbered
    template under the status it is called with.  The handler hands the
    request to [error_page] as well; what the template makes of it (of
    [request.user], say) is in neither the sources nor the spec, and the
    page below keeps no trace of it.  Nothing that follows compares the
    pages of two different requests. *)
Definition error_page (request : HttpRequest) (template : Z) (status : Z)
    : HttpResponse :=
  {| response_class := Cls.HttpResponse; status_code := status;
     redirect_to := None; content := Template template |}.

(** ** State and exceptions *)

Inductive Exception : Type :=
| KeyError (key : string)
| NoReverseMatch (viewname : string)
| DoesNotExist
| MultipleObjectsReturned.

Inductive Outcome (A : Type) : Type :=
| Returned (a : A)
| Raised (e : Exception).
Arguments Returned {A} a.
Arguments Raised {A} e.

Record State : Type := mkState {
  request : HttpRequest;
  database : Database;
  log : list string
}.

Definition M (A : Type) : Type := State → Outcome A * State.

Global Instance M_ret : MRet M := λ A a st, (Returned a, st).

Global Instance M_bind : MBind M := λ A B f m st,
  match m st with
  | (Returned a, st') => f a st'
  | (Raised e, st') => (Raised e, st')
  end.

Definition raise {A} (e : Exception) : M A := λ st, (Raised e, st).

(** The request object the handler was called with. *)
Definition get_request : M HttpRequest := λ st, (Returned (request st), st).

(** [request.META[key]] *)
Definition META_getitem (key : string) : M string := λ st,
  match META (request st) !! key with
  | Some v => (Returned v, st)
  | None => (Raised (KeyError key), st)
  end.

(** [request.META[key] = value] *)
Definition META_setitem (key value : string) : M unit := λ st,
  (Returned tt,
   {| request := set_META (insert key value) (request st);
      database := database st; log := log st |}).

(** [log.debug(msg)] *)
Definition log_debug (msg : string) : M unit := λ st,
  (Returned tt,
   {| request := request st; database := database st;
      log := log st ++ [msg] |}).

(** [try: body finally: final] *)
Definition try_finally {A} (body : M A) (final : M unit) : M A := λ st,
  let '(r, st') := body st in
  match final st' with
  | (Returned _, st'') => (r, st'')
  | (Raised e, st'') => (Raised e, st'')
  end.

(** *** Database lookups *)

(** [field__iexact=value] *)
Definition iexact (field value : string) : bool :=
  bool_decide (Py.lower field = Py.lower value).

(** [User.objects.filter(username__iexact=value).exists()] *)
Definition User_filter_username_iexact_exists (value : string) : M bool := λ st,
  (Returned (existsb (λ u, iexact (username u) value)
                     (User_objects (database st))), st).

(** [Group.objects.filter(url=value).exists()] *)
Definition Group_filter_url_exists (value : string) : M bool := λ st,
  (Returned (existsb (λ g, bool_decide (Group.url g = value))
                     (Group_objects (database st))), st).

(** [GroupAlias.objects.filter(url=value)] *)
Definition GroupAlias_filter_url (value : string) (db : Database)
    : list GroupAlias.t :=
  filter (λ a, GroupAlias.url a = value) (GroupAlias_objects db).

(** [GroupAlias.objects.filter(url=value).exists()] *)
Definition GroupAlias_filter_url_exists (value : string) : M bool := λ st,
  (Returned (match GroupAlias_filter_url value (database st) with
             | [] => false
             | _ :: _ => true
             end), st).

(** [GroupAlias.objects.get(url=value)] *)
Definition GroupAlias_get_url (value : string) : M GroupAlias.t := λ st,
  match GroupAlias_filter_url value (database st) with
  | [] => (Raised DoesNotExist, st)
  | [a] => (Returned a, st)
  | _ :: _ :: _ => (Raised MultipleObjectsReturned, st)
  end.

(** ** The source file *)

Section Middleware.
Context {django : Django}.

(** [reverse(viewname, args=args)] *)
Definition reverse_url (viewname : string) (args : list string) : M string :=
  match reverse viewname args with
  | Some u => mret u
  | None => raise (NoReverseMatch viewname)
  end.

(** The context manager [safe_query_string(request)] around [body]:
    the code before [yield] runs, then [body], and the [finally]
    clause runs however [body] ends. *)
Definition safe_query_string {A} (body : M A) : M A :=
  qs ← META_getitem "QUERY_STRING";
  try_finally
    (META_setitem "QUERY_STRING" (iri_to_uri qs);; body)
    (META_setitem "QUERY_STRING" qs).

(** The lines shared by the four redirecting handlers:
[[
  if request.GET:
      with safe_query_string(request):
          newurl += '?' + request.META['QUERY_STRING']
]]
    yielding the new value of [newurl]. *)
Definition add_query_string (request : HttpRequest) (newurl : string) : M string :=
  if bool_decide (GET request ≠ ∅) then
    safe_query_string
      (qs ← META_getitem "QUERY_STRING"; mret (newurl +:+ "?" +:+ qs))
  else mret newurl.

End Middleware.

Module PermissionDeniedMiddleware.

Definition process_response (response : HttpResponse) : M HttpResponse :=
  request ← get_request;
  if isinstance response [Cls.HttpResponseForbidden; Cls.HttpResponseNotAllowed]
  then
    (if is_authenticated (user request) then
       log_debug ("Permission denied middleware, user was " +:+
                  "authenticated, sending 500")
     else if isinstance response [Cls.HttpResponseForbidden] then
       log_debug "Response was forbidden"
     else if isinstance response [Cls.HttpResponseNotAllowed] then
       log_debug "Response was not allowed"
     else mret tt);;
    mret (error_page request 500 (status_code response))
  else mret response.
End PermissionDeniedMiddleware.

Module RemoveSlashMiddleware.
Section Handler.
Context {django : Django}.

(** The condition of the [if], on the request as it is on entry. *)
Definition applies (request : HttpRequest) (response : HttpResponse) : bool :=
  bool_decide (status_code response = 404)
  && Py.endswith (path_info request) "/"
  && negb (is_valid_path (path_info request))
  && is_valid_path (Py.slice_to_last (path_info request)).

Definition process_response (response : HttpResponse) : M HttpResponse :=
  request ← get_request;
  if applies request response then
    newurl ← add_query_string request (Py.slice_to_last (path request));
    mret (HttpResponsePermanentRedirect newurl)
  else mret response.
End Handler.
End RemoveSlashMiddleware.

Module UsernameRedirectionMiddleware.
Section Handler.
Context {django : Django}.

(** The argument of the [username__iexact] lookup. *)
Definition lookup_name (request : HttpRequest) : string :=
  Py.strip "/" (Py.slice_from_1 (path_info request)).

Definition process_response (response : HttpResponse) : M HttpResponse :=
  request ← get_request;
  if bool_decide (status_code response = 404)
     && negb (Py.startswith (path_info request) "/u/")
     && negb (is_valid_path (path_info request))
  then
    found ← User_filter_username_iexact_exists (lookup_name request);
    if (found : bool) then
      newurl ← add_query_string request ("/u" +:+ path_info request);
      mret (HttpResponseRedirect newurl)
    else mret response
  else mret response.
End Handler.
End UsernameRedirectionMiddleware.

Module OldGroupRedirectionMiddleware.
Section Handler.
Context {django : Django}.

Definition process_response (response : HttpResponse) : M HttpResponse :=
  request ← get_request;
  let group_url := match_old_group_url (path_info request) in
  match bool_decide (status_code response = 404), group_url with
  | true, Some (_, url) =>
      found ← Group_filter_url_exists url;
      if (found : bool) then
        newurl ← reverse_url "group" [url];
        newurl ← add_query_string request newurl;
        mret (HttpResponseRedirect newurl)
      else mret response
  | _, _ => mret response
  end.
End Handler.
End OldGroupRedirectionMiddleware.

Module GroupAliasRedirectionMiddleware.
Section Handler.
Context {django : Django}.

Definition process_response (response : HttpResponse) : M HttpResponse :=
  request ← get_request;
  let group_url := match_group_url (path_info request) in
  match bool_decide (status_code response = 404), group_url with
  | true, Some url =>
      found ← GroupAlias_filter_url_exists url;
      if (found : bool) then
        group_alias ← GroupAlias_get_url url;
        newurl ← reverse_url "group" [Group.url (GroupAlias.alias group_alias)];
        newurl ← add_query_string request newurl;
        mret (HttpResponseRedirect newurl)
      else mret response
  | _, _ => mret response
  end.
End Handler.
End GroupAliasRedirectionMiddleware.


(** ** Vocabulary of the properties *)

(** The URL a redirecting handler ends up with: [url] itself when
    [request.GET] is empty, otherwise [url], a question mark and the
    query string of the request as [iri_to_uri] renders it. *)
Inductive with_query_string {django : Django} (request : HttpRequest) (url : string)
    : string → Prop :=
| without_query :
    GET request = ∅ → with_query_string request url url
| with_query (qs : string) :
    GET request ≠ ∅ →
    META request !! "QUERY_STRING" = Some qs →
    with_query_string request url (url +:+ "?" +:+ iri_to_uri qs).

(** [response] is an instance of the class [k]. *)
Definition is_a (response : HttpResponse) (k : Cls.t) : Prop :=
  Cls.issubclass (response_class response) k = true.

(** A computation that leaves the database as it found it, however it
    ends. *)
Definition preserves_database {A} (m : M A) : Prop :=
  ∀ st, database (m st).2 = database st.

(** The lemmas about [preserves_database], one per operation of the
    monad; [frame] walks a handler's body with them. *)
Create HintDb frame discriminated.

Ltac frame := eauto 30 with frame.

(** A computation that leaves the whole state (request, database and
    log) as it found it, however it ends. *)
Definition leaves_state {A} (m : M A) : Prop :=
  ∀ st, (m st).2 = st.

(** The lemmas about [leaves_state]; [unchanged] walks a handler's body
    with them. *)
Create HintDb unchanged discriminated.

Ltac unchanged := eauto 30 with unchanged.

(** A computation that, when it returns, returns [response] itself or
    a response whose status is not 404. *)
Definition returns_given_or_other (response : HttpResponse)
    (m : M HttpResponse) : Prop :=
  ∀ st r st', m st = (Returned r, st') → r = response ∨ status_code r ≠ 404.

(** Case-insensitive equality of two names. *)
Definition same_name (a b : string) : Prop := Py.lower a = Py.lower b.

(** [s] has the shape [/group/<digits>-<url>], with at least one digit
    and a non-empty [url] free of slashes. *)
Definition old_group_path (s id url : string) : Prop :=
  s = "/group/" +:+ id +:+ "-" +:+ url ∧
  id ≠ "" ∧ Py.all_chars Py.is_digit id = true ∧
  url ≠ "" ∧ Py.all_chars not_slash url = true.

(** [s] has the shape [/group/<url>], with a non-empty [url] free of
    slashes. *)
Definition group_path (s url : string) : Prop :=
  s = "/group/" +:+ url ∧ url ≠ "" ∧ Py.all_chars not_slash url = true.

(** ** A small site to run the handlers on *)

Module Example.

(** Percent-encodes the spaces of a string and nothing else. *)
Fixpoint encode_spaces (s : string) : string :=
  match s with
  | "" => ""
  | String a s' =>
      if bool_decide (a = " "%char) then "%20" +:+ encode_spaces s'
      else String a (encode_spaces s')
  end.

Definition site : Django := {|
  is_valid_path p := bool_decide (p ∈ ["/about"; "/u/bob/"; "/groups"]);
  reverse viewname args :=
    match args with
    | [u] => if bool_decide (viewname = "group") then Some ("/group/" +:+ u) else None
    | _ => None
    end;
  iri_to_uri := encode_spaces
|}.

Definition rust : Group.t := Group.mk "Rust" "rust".

Definition db : Database := {|
  User_objects := [mkUser "alice"; mkUser "Bob"];
  Group_objects := [rust; Group.mk "Python" "python"];
  GroupAlias_objects := [GroupAlias.mk "Rustaceans" "rustaceans" rust]
|}.

Definition environ : gmap string string :=
  {[ "QUERY_STRING" := "q=x y"; "REQUEST_METHOD" := "GET" ]}.

Definition get (path path_info : string) (u : RequestUser) : State := {|
  request := {| path := path; path_info := path_info;
                GET := {[ "q" := ["x y"] ]}; META := environ; user := u |};
  database := db;
  log := []
|}.

Definition not_found : HttpResponse :=
  {| response_class := Cls.HttpResponseNotFound; status_code := 404;
     redirect_to := None; content := Text "Not Found" |}.

Definition forbidden : HttpResponse :=
  {| response_class := Cls.HttpResponseForbidden; status_code := 403;
     redirect_to := None; content := Text "Forbidden" |}.

Definition not_allowed : HttpResponse :=
  {| response_class := Cls.HttpResponseNotAllowed; status_code := 405;
     redirect_to := None; content := Text "" |}.

End Example.

(** ** The definitions on sample inputs *)

Example strip_sample :
  Py.strip "/" "//bob/a//" = "bob/a"
  ∧ Py.strip "/" "///" = ""
  ∧ Py.slice_from_1 "" = ""
  ∧ Py.slice_to_last "" = ""
  ∧ Py.slice_to_last "/about/" = "/about"
  ∧ Py.endswith "" "/" = false
  ∧ Py.startswith "/u" "/u/" = false
  ∧ Py.lower "BoB-42" = "bob-42".
Proof. by repeat split. Qed.

Example match_old_group_url_sample :
  match_old_group_url "/group/12-34-foo" = Some ("12", "34-foo")
  ∧ match_old_group_url "/group/12-" = None
  ∧ match_old_group_url "/group/-foo" = None
  ∧ match_old_group_url "/group/1-a/b" = None
  ∧ match_old_group_url "/groups/1-a" = None
  ∧ match_old_group_url ("/group/1-a" +:+ String "010" "")
    = Some ("1", "a" +:+ String "010" "").
Proof. by repeat split. Qed.

Example match_group_url_sample :
  match_group_url "/group/rust" = Some "rust"
  ∧ match_group_url "/group/" = None
  ∧ match_group_url "/group/rust/" = None
  ∧ match_group_url "/en-US/group/rust" = None.
Proof. by repeat split. Qed.

Example isinstance_sample :
  isinstance Example.forbidden [Cls.HttpResponseForbidden] = true
  ∧ isinstance Example.forbidden [Cls.HttpResponse] = true
  ∧ isinstance Example.not_found
      [Cls.HttpResponseForbidden; Cls.HttpResponseNotAllowed] = false
  ∧ isinstance
      {| response_class := Cls.Derived "CsrfFailure" Cls.HttpResponseForbidden;
         status_code := 403; redirect_to := None; content := Text "" |}
      [Cls.HttpResponseForbidden; Cls.HttpResponseNotAllowed] = true
  ∧ isinstance
      {| response_class := Cls.HttpResponse; status_code := 403;
         redirect_to := None; content := Text "" |}
      [Cls.HttpResponseForbidden; Cls.HttpResponseNotAllowed] = false.
Proof. by repeat split. Qed.

(** ** Strings *)

Lemma append_cons (a : ascii) (s t : string) :
  String a s +:+ t = String a (s +:+ t).
Proof. reflexivity. Qed.

Lemma append_nil_l (t : string) : "" +:+ t = t.
Proof. reflexivity. Qed.

Lemma startswith_spec (s prefix : string) :
  Py.startswith s prefix = true ↔ ∃ rest, s = prefix +:+ rest.
Proof.
  revert s. induction prefix as [|p prefix IH]; intros s; cbn [Py.startswith].
  - split; [intros _; by exists s | done].
  - destruct s as [|c s].
    + split; [done | intros [rest Hrest]; discriminate Hrest].
    + rewrite andb_true_iff, bool_decide_eq_true, IH. split.
      * intros [-> [rest ->]]. by exists rest.
      * intros [rest Hrest]. rewrite append_cons in Hrest.
        injection Hrest as -> ->. eauto.
Qed.

Lemma endswith_spec (s suffix : string) :
  Py.endswith s suffix = true ↔ ∃ front, s = front +:+ suffix.
Proof.
  induction s as [|c s IH]; cbn [Py.endswith];
    rewrite orb_true_iff, bool_decide_eq_true.
  - split.
    + intros [<- | ?]; [by exists "" | done].
    + intros [[|a front] Hfront]; [by left | discriminate Hfront].
  - rewrite IH. split.
    + intros [<- | [front ->]]; [by exists "" | by exists (String c front)].
    + intros [[|a front] Hfront]; [by left | right].
      rewrite append_cons in Hfront. injection Hfront as -> ->. eauto.
Qed.

Lemma slice_to_last_app (s : string) (a : ascii) :
  Py.slice_to_last (s +:+ String a "") = s.
Proof.
  induction s as [|c s IH]; [done |].
  rewrite append_cons. cbn [Py.slice_to_last]. rewrite IH.
  destruct s; by rewrite ?append_cons.
Qed.

Lemma slice_to_last_endswith (s : string) (a : ascii) :
  Py.endswith s (String a "") = true → Py.slice_to_last s +:+ String a "" = s.
Proof.
  intros [front ->]%endswith_spec. by rewrite slice_to_last_app.
Qed.

Lemma strip_prefix_app (prefix s : string) :
  Py.strip_prefix prefix (prefix +:+ s) = Some s.
Proof.
  induction prefix as [|p prefix IH]; [done |].
  rewrite append_cons. cbn [Py.strip_prefix].
  by rewrite bool_decide_eq_true_2.
Qed.

Lemma strip_prefix_Some (prefix s rest : string) :
  Py.strip_prefix prefix s = Some rest → s = prefix +:+ rest.
Proof.
  revert s. induction prefix as [|p prefix IH]; intros s; cbn [Py.strip_prefix].
  - by intros [= ->].
  - destruct s as [|c s]; [done |]. case_bool_decide; [subst c | done].
    intros ->%IH. by rewrite append_cons.
Qed.

Lemma span_app (p : ascii → bool) (l r : string) :
  Py.all_chars p l = true →
  match r with "" => True | String a _ => p a = false end →
  Py.span p (l +:+ r) = (l, r).
Proof.
  intros Hl Hr. induction l as [|a l IH].
  - rewrite append_nil_l. destruct r as [|a r]; [done |].
    cbn [Py.span]. by rewrite Hr.
  - cbn [Py.all_chars] in Hl. apply andb_true_iff in Hl as [Ha Hl].
    rewrite append_cons. cbn [Py.span]. by rewrite Ha, (IH Hl).
Qed.

Lemma span_spec (p : ascii → bool) (s l r : string) :
  Py.span p s = (l, r) →
  s = l +:+ r ∧ Py.all_chars p l = true ∧
  match r with "" => True | String a _ => p a = false end.
Proof.
  revert l r. induction s as [|a s IH]; intros l r; cbn [Py.span].
  - by intros [= <- <-].
  - destruct (p a) eqn:Ha.
    + destruct (Py.span p s) as [l' r'] eqn:Hs. intros [= <- <-].
      destruct (IH l' r' eq_refl) as (-> & Hl & Hr).
      split_and!; [done | | done]. cbn [Py.all_chars]. by rewrite Ha, Hl.
    + intros [= <- <-]. by rewrite Ha.
Qed.

(** ** The regular expressions, in words *)

Lemma match_old_group_url_spec (s id url : string) :
  match_old_group_url s = Some (id, url) ↔ old_group_path s id url.
Proof.
  unfold match_old_group_url, old_group_path. split.
  - destruct (Py.strip_prefix "/group/" s) as [rest|] eqn:Hpre; [|done].
    apply strip_prefix_Some in Hpre as ->.
    destruct (Py.span Py.is_digit rest) as [l r] eqn:Hspan.
    apply span_spec in Hspan as (-> & Hl & _).
    destruct l as [|d l]; [done |]. destruct r as [|a r]; [done |].
    destruct (bool_decide (a = "-"%char) && bool_decide (r ≠ "")
              && Py.all_chars not_slash r) eqn:Hif; [|done].
    apply andb_true_iff in Hif as [[Ha Hr]%andb_true_iff Hns].
    apply bool_decide_eq_true in Ha as ->. apply bool_decide_eq_true in Hr.
    by intros [= <- <-].
  - intros (-> & Hid & Hdigits & Hurl & Hns).
    rewrite strip_prefix_app.
    rewrite (span_app Py.is_digit id ("-" +:+ url) Hdigits); [|done].
    destruct id as [|d id]; [done |].
    change ("-" +:+ url) with (String "-" url). cbv beta iota.
    by rewrite Hns, !bool_decide_eq_true_2.
Qed.

Lemma match_group_url_spec (s url : string) :
  match_group_url s = Some url ↔ group_path s url.
Proof.
  unfold match_group_url, group_path. split.
  - destruct (Py.strip_prefix "/group/" s) as [rest|] eqn:Hpre; [|done].
    apply strip_prefix_Some in Hpre as ->.
    destruct (bool_decide (rest ≠ "") && Py.all_chars not_slash rest) eqn:Hif;
      [|done].
    apply andb_true_iff in Hif as [Hr%bool_decide_eq_true Hns].
    by intros [= <-].
  - intros (-> & Hurl & Hns).
    by rewrite strip_prefix_app, Hns, bool_decide_eq_true_2.
Qed.

(** ** Stripping slashes *)

Lemma rstrip_app_slash_free (c : ascii) (name : string) :
  Py.all_chars (λ a, negb (bool_decide (a = c))) name = true →
  Py.rstrip c (name +:+ String c "") = name.
Proof.
  induction name as [|a name IH]; intros Hname.
  - rewrite append_nil_l. cbn [Py.rstrip]. by rewrite bool_decide_eq_true_2.
  - cbn [Py.all_chars] in Hname.
    apply andb_true_iff in Hname as [Ha%negb_true_iff Hname].
    rewrite append_cons. cbn [Py.rstrip]. rewrite (IH Hname), Ha.
    by destruct name.
Qed.

Lemma lstrip_slash_free (c : ascii) (name rest : string) :
  name ≠ "" →
  Py.all_chars (λ a, negb (bool_decide (a = c))) name = true →
  Py.lstrip c (name +:+ rest) = name +:+ rest.
Proof.
  destruct name as [|a name]; [done |]. intros _ Hname.
  cbn [Py.all_chars] in Hname.
  apply andb_true_iff in Hname as [Ha%negb_true_iff _].
  rewrite append_cons. cbn [Py.lstrip]. by rewrite Ha.
Qed.

Lemma strip_app_slash_free (c : ascii) (name : string) :
  Py.all_chars (λ a, negb (bool_decide (a = c))) name = true →
  Py.strip c (name +:+ String c "") = name.
Proof.
  intros Hname. unfold Py.strip. destruct (decide (name = "")) as [->|Hne].
  - rewrite append_nil_l. cbn [Py.lstrip]. by rewrite bool_decide_eq_true_2.
  - rewrite lstrip_slash_free by done. by apply rstrip_app_slash_free.
Qed.

Lemma rstrip_not_endswith (c : ascii) (s : string) :
  Py.endswith (Py.rstrip c s) (String c "") = false.
Proof.
  induction s as [|a s IH]; [done |].
  cbn [Py.rstrip]. destruct (Py.rstrip c s) as [|b r] eqn:Hr.
  - case_bool_decide as Ha; [done |].
    cbn [Py.endswith]. rewrite bool_decide_eq_false_2; [done |].
    by intros [= ->].
  - cbn [Py.endswith] in *. rewrite bool_decide_eq_false_2 by done.
    exact IH.
Qed.

Lemma endswith_app (front s suffix : string) :
  Py.endswith s suffix = true → Py.endswith (front +:+ s) suffix = true.
Proof.
  rewrite !endswith_spec. intros [f ->]. exists (front +:+ f).
  induction front as [|a front IH]; [done |].
  by rewrite !append_cons, IH.
Qed.

(** ** Running the monad *)

Lemma State_eta (st : State) :
  {| request := request st; database := database st; log := log st |} = st.
Proof. by destruct st. Qed.

Lemma set_META_restore (r : HttpRequest) (k v v' : string) :
  META r !! k = Some v →
  set_META (insert k v) (set_META (insert k v') r) = r.
Proof.
  intros Hk. destruct r as [p pi g m u]. unfold set_META. cbn in *.
  by rewrite insert_insert_eq, insert_id.
Qed.

Lemma bind_Returned {A B} (m : M A) (f : A → M B) (st st' : State) (a : A) :
  m st = (Returned a, st') → (m ≫= f) st = f a st'.
Proof. intros Hm. unfold mbind, M_bind. by rewrite Hm. Qed.

Lemma bind_Raised {A B} (m : M A) (f : A → M B) (st st' : State) (e : Exception) :
  m st = (Raised e, st') → (m ≫= f) st = (Raised e, st').
Proof. intros Hm. unfold mbind, M_bind. by rewrite Hm. Qed.

Section Running.
Context {django : Django}.

(** What [safe_query_string] does around any body, when the request
    has a query string: the body runs with the encoded value in place,
    and the original value is put back whatever the body's outcome. *)
Lemma safe_query_string_run {A} (body : M A) (st : State) (qs : string) :
  META (request st) !! "QUERY_STRING" = Some qs →
  safe_query_string body st =
    let '(r, st') := body (META_setitem "QUERY_STRING" (iri_to_uri qs) st).2 in
    (r, (META_setitem "QUERY_STRING" qs st').2).
Proof.
  intros Hqs. unfold safe_query_string.
  rewrite (bind_Returned _ _ st st qs); [|unfold META_getitem; by rewrite Hqs].
  unfold try_finally, mbind, M_bind, META_setitem. cbn.
  by destruct (body _) as [r st'].
Qed.

Lemma safe_query_string_no_key {A} (body : M A) (st : State) :
  META (request st) !! "QUERY_STRING" = None →
  safe_query_string body st = (Raised (KeyError "QUERY_STRING"), st).
Proof.
  intros Hqs. unfold safe_query_string.
  apply bind_Raised. unfold META_getitem. by rewrite Hqs.
Qed.

Lemma add_query_string_run (st : State) (url target : string) :
  with_query_string (request st) url target →
  add_query_string (request st) url st = (Returned target, st).
Proof.
  intros [Hget | qs Hget Hqs]; unfold add_query_string.
  - by rewrite bool_decide_eq_false_2 by (by intros []).
  - rewrite bool_decide_eq_true_2 by done.
    rewrite (safe_query_string_run _ _ qs Hqs).
    unfold META_getitem, META_setitem, mbind, M_bind, mret, M_ret.
    cbn -[set_META]. change (META (set_META ?f ?r)) with (f (META r)).
    rewrite lookup_insert_eq. cbn [request database log].
    rewrite set_META_restore by done.
    by rewrite State_eta.
Qed.

End Running.

(** ** Computations that only read the database *)

Lemma preserves_ret {A} (a : A) : preserves_database (mret a).
Proof. by intros st. Qed.

Lemma preserves_raise {A} (e : Exception) : preserves_database (raise (A:=A) e).
Proof. by intros st. Qed.

Lemma preserves_bind {A B} (m : M A) (f : A → M B) :
  preserves_database m → (∀ a, preserves_database (f a)) →
  preserves_database (m ≫= f).
Proof.
  intros Hm Hf st. unfold mbind, M_bind.
  specialize (Hm st). destruct (m st) as [[a|e] st']; cbn in *.
  - by rewrite Hf.
  - done.
Qed.

Lemma preserves_try_finally {A} (body : M A) (final : M unit) :
  preserves_database body → preserves_database final →
  preserves_database (try_finally body final).
Proof.
  intros Hbody Hfinal st. unfold try_finally.
  specialize (Hbody st). destruct (body st) as [r st']. cbn in Hbody.
  specialize (Hfinal st'). destruct (final st') as [[[]|e] st'']; cbn in *; congruence.
Qed.

Lemma preserves_get_request : preserves_database get_request.
Proof. by intros st. Qed.

Lemma preserves_META_getitem (key : string) :
  preserves_database (META_getitem key).
Proof. intros st. unfold META_getitem. by destruct (_ !! _). Qed.

Lemma preserves_META_setitem (key value : string) :
  preserves_database (META_setitem key value).
Proof. by intros st. Qed.

Lemma preserves_log_debug (msg : string) : preserves_database (log_debug msg).
Proof. by intros st. Qed.

Lemma preserves_User_exists (value : string) :
  preserves_database (User_filter_username_iexact_exists value).
Proof. by intros st. Qed.

Lemma preserves_Group_exists (value : string) :
  preserves_database (Group_filter_url_exists value).
Proof. by intros st. Qed.

Lemma preserves_GroupAlias_exists (value : string) :
  preserves_database (GroupAlias_filter_url_exists value).
Proof. by intros st. Qed.

Lemma preserves_GroupAlias_get (value : string) :
  preserves_database (GroupAlias_get_url value).
Proof.
  intros st. unfold GroupAlias_get_url.
  by destruct (GroupAlias_filter_url _ _) as [|a [|b l]].
Qed.

#[export] Hint Resolve preserves_ret preserves_raise preserves_get_request
  preserves_META_getitem preserves_META_setitem preserves_log_debug
  preserves_User_exists preserves_Group_exists preserves_GroupAlias_exists
  preserves_GroupAlias_get : frame.

#[export] Hint Resolve preserves_bind preserves_try_finally : frame.
#[export] Hint Extern 2 (preserves_database (if ?b then _ else _)) =>
  destruct b : frame.
#[export] Hint Extern 2 (preserves_database (match ?x with _ => _ end)) =>
  destruct x : frame.

Section Frame.
Context {django : Django}.

Lemma preserves_reverse_url (viewname : string) (args : list string) :
  preserves_database (reverse_url viewname args).
Proof. unfold reverse_url. frame. Qed.

Lemma preserves_safe_query_string {A} (body : M A) :
  preserves_database body → preserves_database (safe_query_string body).
Proof. intros Hbody. unfold safe_query_string. frame. Qed.

Lemma preserves_add_query_string (request : HttpRequest) (newurl : string) :
  preserves_database (add_query_string request newurl).
Proof.
  unfold add_query_string. destruct (bool_decide _); [|frame].
  apply preserves_safe_query_string. frame.
Qed.

End Frame.

#[export] Hint Resolve preserves_reverse_url preserves_add_query_string : frame.

(** ** PermissionDeniedMiddleware *)

Lemma isinstance_forbidden_or_not_allowed (response : HttpResponse) :
  isinstance response [Cls.HttpResponseForbidden; Cls.HttpResponseNotAllowed] = true
  ↔ is_a response Cls.HttpResponseForbidden ∨ is_a response Cls.HttpResponseNotAllowed.
Proof.
  unfold isinstance, is_a. cbn [existsb].
  rewrite orb_false_r, orb_true_iff. tauto.
Qed.

(** The handler on a 403 or 405 response: the log line depends on the
    user and on the class, the call of [error_page] is the same in every
    branch. *)
Lemma permission_denied_run (response : HttpResponse) (st : State) :
  is_a response Cls.HttpResponseForbidden ∨ is_a response Cls.HttpResponseNotAllowed →
  ∃ messages,
    PermissionDeniedMiddleware.process_response response st =
      (Returned (error_page (request st) 500 (status_code response)),
       {| request := request st; database := database st;
          log := log st ++ messages |}).
Proof.
  intros Hclass. unfold PermissionDeniedMiddleware.process_response.
  unfold mbind, M_bind, get_request.
  rewrite (proj2 (isinstance_forbidden_or_not_allowed response) Hclass).
  destruct (is_authenticated (user (request st))).
  { eexists. unfold log_debug, mret, M_ret. reflexivity. }
  destruct (isinstance response [Cls.HttpResponseForbidden]).
  { eexists. unfold log_debug, mret, M_ret. reflexivity. }
  destruct (isinstance response [Cls.HttpResponseNotAllowed]).
  { eexists. unfold log_debug, mret, M_ret. reflexivity. }
  exists []. unfold mret, M_ret. cbn. by rewrite app_nil_r, State_eta.
Qed.

(** C1.  Whatever the request, [PermissionDeniedMiddleware.process_response]
    answers an instance of [HttpResponseForbidden] or of
    [HttpResponseNotAllowed] with the generic error page,
    [error_page(request, 500, status=response.status_code)], touching
    nothing but the log; any other response comes back as it was given,
    and nothing changes. *)
Theorem permission_denied_process_response
    (response : HttpResponse) (st : State) :
  (is_a response Cls.HttpResponseForbidden ∨ is_a response Cls.HttpResponseNotAllowed →
   ∃ messages,
     PermissionDeniedMiddleware.process_response response st =
       (Returned (error_page (request st) 500 (status_code response)),
        {| request := request st; database := database st;
           log := log st ++ messages |}))
  ∧
  (¬ (is_a response Cls.HttpResponseForbidden ∨ is_a response Cls.HttpResponseNotAllowed) →
   PermissionDeniedMiddleware.process_response response st = (Returned response, st)).
Proof.
  split; [apply permission_denied_run |].
  intros Hclass. unfold PermissionDeniedMiddleware.process_response.
  unfold mbind, M_bind, get_request.
  destruct (isinstance response _) eqn:Hinst; [|done].
  by apply isinstance_forbidden_or_not_allowed in Hinst.
Qed.

Lemma permission_denied_process_response_witness :
  (∃ messages,
     PermissionDeniedMiddleware.process_response Example.forbidden
       (Example.get "/en-US/invite" "/invite" AnonymousUser) =
     (Returned (error_page (request (Example.get "/en-US/invite" "/invite" AnonymousUser))
                           500 403),
      {| request := request (Example.get "/en-US/invite" "/invite" AnonymousUser);
         database := Example.db; log := [] ++ messages |}))
  ∧
  PermissionDeniedMiddleware.process_response Example.not_found
    (Example.get "/en-US/invite" "/invite" AnonymousUser) =
  (Returned Example.not_found, Example.get "/en-US/invite" "/invite" AnonymousUser).
Proof.
  split.
  - apply (proj1 (permission_denied_process_response
                    Example.forbidden
                    (Example.get "/en-US/invite" "/invite" AnonymousUser))).
    left. reflexivity.
  - apply (proj2 (permission_denied_process_response
                    Example.not_found
                    (Example.get "/en-US/invite" "/invite" AnonymousUser))).
    intros [Hf | Hn]; discriminate.
Defined.

(** C2.  The error page that replaces a 403 or 405 response carries the
    status code of the response it replaces, and renders template 500:
    the 500 names the template, the status is passed through. *)
Theorem permission_denied_keeps_status
    (response : HttpResponse) (st : State) :
  is_a response Cls.HttpResponseForbidden ∨ is_a response Cls.HttpResponseNotAllowed →
  ∃ page st',
    PermissionDeniedMiddleware.process_response response st = (Returned page, st')
    ∧ status_code page = status_code response
    ∧ content page = Template 500.
Proof.
  intros Hclass. destruct (permission_denied_run response st Hclass) as [messages ->].
  by eexists _, _.
Qed.

Lemma permission_denied_keeps_status_witness :
  (∃ page st',
     PermissionDeniedMiddleware.process_response Example.forbidden
       (Example.get "/en-US/invite" "/invite" AnonymousUser) = (Returned page, st')
     ∧ status_code page = 403 ∧ content page = Template 500)
  ∧
  (∃ page st',
     PermissionDeniedMiddleware.process_response Example.not_allowed
       (Example.get "/en-US/invite" "/invite" AnonymousUser) = (Returned page, st')
     ∧ status_code page = 405 ∧ content page = Template 500).
Proof.
  split.
  - apply (permission_denied_keeps_status Example.forbidden).
    left. reflexivity.
  - apply (permission_denied_keeps_status Example.not_allowed).
    right. reflexivity.
Defined.

(** ** Lookups, in words *)

Lemma existsb_elem_of {A} (f : A → bool) (l : list A) :
  existsb f l = true ↔ ∃ x, x ∈ l ∧ f x = true.
Proof.
  rewrite existsb_exists. by setoid_rewrite list_elem_of_In.
Qed.

Lemma User_exists_spec (value : string) (st : State) :
  ∃ found,
    User_filter_username_iexact_exists value st = (Returned found, st)
    ∧ (found = true ↔ ∃ u, u ∈ User_objects (database st)
                           ∧ same_name (username u) value).
Proof.
  eexists. split; [reflexivity |].
  rewrite existsb_elem_of. unfold iexact, same_name.
  by setoid_rewrite bool_decide_eq_true.
Qed.

Lemma Group_exists_spec (value : string) (st : State) :
  ∃ found,
    Group_filter_url_exists value st = (Returned found, st)
    ∧ (found = true ↔ ∃ g, g ∈ Group_objects (database st)
                           ∧ Group.url g = value).
Proof.
  eexists. split; [reflexivity |].
  rewrite existsb_elem_of. by setoid_rewrite bool_decide_eq_true.
Qed.




(** Every request of the example site carries the query [q=x y]. *)
Lemma Example_with_query (url path path_info : string) (u : RequestUser) :
  with_query_string (django:=Example.site)
    (request (Example.get path path_info u)) url (url +:+ "?q=x%20y").
Proof.
  apply (with_query (django:=Example.site) _ _ "q=x y"); [|reflexivity].
  cbn. apply insert_non_empty.
Qed.

(** ** RemoveSlashMiddleware *)

(** C3.  On a 404 response to a request whose [path_info] ends with a
    slash, is not a valid path and becomes one without its last
    character, [RemoveSlashMiddleware.process_response] returns a
    permanent (301) redirect to [request.path[:-1]], followed by a
    question mark and the query string when [request.GET] is not empty,
    and leaves request, database and log as they were.  In every other
    case it returns the response it was given.  [request.path[:-1]] is
    [request.path] without its trailing slash whenever [request.path]
    ends with one. *)
Theorem remove_slash_process_response {django : Django}
    (response : HttpResponse) (st : State) :
  (status_code response = 404 →
   Py.endswith (path_info (request st)) "/" = true →
   is_valid_path (path_info (request st)) = false →
   is_valid_path (Py.slice_to_last (path_info (request st))) = true →
   ∀ target,
     with_query_string (request st) (Py.slice_to_last (path (request st))) target →
     RemoveSlashMiddleware.process_response response st =
       (Returned (HttpResponsePermanentRedirect target), st))
  ∧
  (¬ (status_code response = 404
      ∧ Py.endswith (path_info (request st)) "/" = true
      ∧ is_valid_path (path_info (request st)) = false
      ∧ is_valid_path (Py.slice_to_last (path_info (request st))) = true) →
   RemoveSlashMiddleware.process_response response st = (Returned response, st))
  ∧
  (Py.endswith (path (request st)) "/" = true →
   Py.slice_to_last (path (request st)) +:+ "/" = path (request st)).
Proof.
  unfold RemoveSlashMiddleware.process_response.
  rewrite (bind_Returned get_request _ st st (request st) eq_refl).
  unfold RemoveSlashMiddleware.applies. split_and!.
  - intros H404 Hslash Hinvalid Hvalid target Htarget.
    rewrite bool_decide_eq_true_2, Hslash, Hinvalid, Hvalid by done.
    cbn [andb negb].
    by rewrite (bind_Returned _ _ st st target (add_query_string_run _ _ _ Htarget)).
  - intros Hnot.
    destruct (_ && _) eqn:Hcond; [exfalso; apply Hnot | done].
    repeat (apply andb_true_iff in Hcond as [Hcond ?]).
    apply bool_decide_eq_true in Hcond. by rewrite <- negb_true_iff.
  - apply slice_to_last_endswith.
Qed.

Lemma remove_slash_process_response_witness :
  RemoveSlashMiddleware.process_response (django:=Example.site) Example.not_found
    (Example.get "/en-US/about/" "/about/" AnonymousUser) =
  (Returned (HttpResponsePermanentRedirect "/en-US/about?q=x%20y"),
   Example.get "/en-US/about/" "/about/" AnonymousUser)
  ∧
  RemoveSlashMiddleware.process_response (django:=Example.site) Example.not_found
    (Example.get "/en-US/nowhere/" "/nowhere/" AnonymousUser) =
  (Returned Example.not_found,
   Example.get "/en-US/nowhere/" "/nowhere/" AnonymousUser).
Proof.
  split.
  - apply (proj1 (remove_slash_process_response (django:=Example.site)
                    Example.not_found
                    (Example.get "/en-US/about/" "/about/" AnonymousUser)));
      [reflexivity | reflexivity | reflexivity | reflexivity |].
    exact (Example_with_query "/en-US/about" _ _ _).
  - apply (proj1 (proj2 (remove_slash_process_response (django:=Example.site)
                           Example.not_found
                           (Example.get "/en-US/nowhere/" "/nowhere/" AnonymousUser)))).
    intros (_ & _ & _ & Hvalid). vm_compute in Hvalid. discriminate Hvalid.
Defined.

(** ** UsernameRedirectionMiddleware *)

(** The redirecting branch of the handler. *)
Lemma username_redirection_run {django : Django}
    (response : HttpResponse) (st : State) (target : string) :
  status_code response = 404 →
  Py.startswith (path_info (request st)) "/u/" = false →
  is_valid_path (path_info (request st)) = false →
  (∃ u, u ∈ User_objects (database st)
        ∧ same_name (username u)
            (UsernameRedirectionMiddleware.lookup_name (request st))) →
  with_query_string (request st) ("/u" +:+ path_info (request st)) target →
  UsernameRedirectionMiddleware.process_response response st =
    (Returned (HttpResponseRedirect target), st).
Proof.
  intros H404 Hprefix Hinvalid Huser Htarget.
  unfold UsernameRedirectionMiddleware.process_response.
  rewrite (bind_Returned get_request _ st st (request st) eq_refl).
  destruct (User_exists_spec
              (UsernameRedirectionMiddleware.lookup_name (request st)) st)
    as (found & Hrun & Hfound).
  rewrite bool_decide_eq_true_2, Hprefix, Hinvalid by done. cbn [andb negb].
  rewrite (bind_Returned _ _ st st found Hrun).
  rewrite (proj2 Hfound Huser).
  by rewrite (bind_Returned _ _ st st target (add_query_string_run _ _ _ Htarget)).
Qed.

(** C4.  On a 404 response to a request whose [path_info] does not
    start with [/u/] and is not a valid path, when some [User] has the
    username [path_info[1:].strip('/')] up to case,
    [UsernameRedirectionMiddleware.process_response] returns a (302)
    redirect to ['/u' + path_info], followed by a question mark and the
    query string when [request.GET] is not empty, and leaves request,
    database and log as they were.  In every other case it returns the
    response it was given. *)
Theorem username_redirection_process_response {django : Django}
    (response : HttpResponse) (st : State) :
  (status_code response = 404 →
   Py.startswith (path_info (request st)) "/u/" = false →
   is_valid_path (path_info (request st)) = false →
   (∃ u, u ∈ User_objects (database st)
         ∧ same_name (username u)
             (Py.strip "/" (Py.slice_from_1 (path_info (request st))))) →
   ∀ target,
     with_query_string (request st) ("/u" +:+ path_info (request st)) target →
     UsernameRedirectionMiddleware.process_response response st =
       (Returned (HttpResponseRedirect target), st))
  ∧
  (¬ (status_code response = 404
      ∧ Py.startswith (path_info (request st)) "/u/" = false
      ∧ is_valid_path (path_info (request st)) = false
      ∧ ∃ u, u ∈ User_objects (database st)
             ∧ same_name (username u)
                 (Py.strip "/" (Py.slice_from_1 (path_info (request st))))) →
   UsernameRedirectionMiddleware.process_response response st =
     (Returned response, st)).
Proof.
  split.
  - intros H404 Hprefix Hinvalid Huser target Htarget.
    by apply username_redirection_run.
  - unfold UsernameRedirectionMiddleware.process_response.
    rewrite (bind_Returned get_request _ st st (request st) eq_refl).
    destruct (User_exists_spec
                (UsernameRedirectionMiddleware.lookup_name (request st)) st)
      as (found & Hrun & Hfound).
    unfold UsernameRedirectionMiddleware.lookup_name in Hfound.
    intros Hnot. destruct (_ && _) eqn:Hcond; [|done].
    rewrite (bind_Returned _ _ st st found Hrun).
    destruct found; [exfalso; apply Hnot | done].
    repeat (apply andb_true_iff in Hcond as [Hcond ?]).
    apply bool_decide_eq_true in Hcond.
    rewrite <- !negb_true_iff. split_and!; try done. by apply Hfound.
Qed.

Lemma username_redirection_process_response_witness :
  UsernameRedirectionMiddleware.process_response (django:=Example.site)
    Example.not_found (Example.get "/en-US/bob" "/bob" AnonymousUser) =
  (Returned (HttpResponseRedirect "/u/bob?q=x%20y"),
   Example.get "/en-US/bob" "/bob" AnonymousUser)
  ∧
  UsernameRedirectionMiddleware.process_response (django:=Example.site)
    Example.not_found (Example.get "/en-US/carol" "/carol" AnonymousUser) =
  (Returned Example.not_found, Example.get "/en-US/carol" "/carol" AnonymousUser).
Proof.
  split.
  - apply (proj1 (username_redirection_process_response (django:=Example.site)
                    Example.not_found
                    (Example.get "/en-US/bob" "/bob" AnonymousUser)));
      [reflexivity | reflexivity | reflexivity | |].
    + exists (mkUser "Bob"). split; [|reflexivity].
      apply list_elem_of_further, list_elem_of_here.
    + exact (Example_with_query "/u/bob" _ _ _).
  - apply (proj2 (username_redirection_process_response (django:=Example.site)
                    Example.not_found
                    (Example.get "/en-US/carol" "/carol" AnonymousUser))).
    intros (_ & _ & _ & u & Hu & Hname).
    cbn in Hu. repeat (apply elem_of_cons in Hu as [-> | Hu]);
      [discriminate Hname | discriminate Hname | by apply not_elem_of_nil in Hu].
Defined.

(** ** OldGroupRedirectionMiddleware *)

(** C5.  On a 404 response to a request whose [path_info] has the shape
    [/group/<digits>-<url>] with [<url>] free of slashes, when some
    [Group] has exactly that [url] and [reverse('group', args=[url])]
    resolves, [OldGroupRedirectionMiddleware.process_response] returns
    a (302) redirect to the resolved URL, followed by a question mark
    and the query string when [request.GET] is not empty, and leaves
    request, database and log as they were.  In every other case it
    returns the response it was given. *)
Theorem old_group_redirection_process_response {django : Django}
    (response : HttpResponse) (st : State) :
  (∀ id url canonical target,
     status_code response = 404 →
     old_group_path (path_info (request st)) id url →
     (∃ g, g ∈ Group_objects (database st) ∧ Group.url g = url) →
     reverse "group" [url] = Some canonical →
     with_query_string (request st) canonical target →
     OldGroupRedirectionMiddleware.process_response response st =
       (Returned (HttpResponseRedirect target), st))
  ∧
  (¬ (status_code response = 404
      ∧ ∃ id url, old_group_path (path_info (request st)) id url
                  ∧ ∃ g, g ∈ Group_objects (database st) ∧ Group.url g = url) →
   OldGroupRedirectionMiddleware.process_response response st =
     (Returned response, st)).
Proof.
  unfold OldGroupRedirectionMiddleware.process_response.
  rewrite (bind_Returned get_request _ st st (request st) eq_refl).
  cbv zeta. split.
  - intros id url canonical target H404 Hpath Hgroup Hreverse Htarget.
    apply match_old_group_url_spec in Hpath. rewrite Hpath.
    rewrite bool_decide_eq_true_2 by done.
    destruct (Group_exists_spec url st) as (found & Hrun & Hfound).
    rewrite (bind_Returned _ _ st st found Hrun), (proj2 Hfound Hgroup).
    unfold reverse_url. rewrite Hreverse.
    rewrite (bind_Returned (mret canonical) _ st st canonical eq_refl).
    by rewrite (bind_Returned _ _ st st target (add_query_string_run _ _ _ Htarget)).
  - intros Hnot. case_bool_decide as H404; [|done].
    destruct (match_old_group_url _) as [[id url]|] eqn:Hpath; [|done].
    apply match_old_group_url_spec in Hpath.
    destruct (Group_exists_spec url st) as (found & Hrun & Hfound).
    rewrite (bind_Returned _ _ st st found Hrun).
    destruct found; [exfalso; apply Hnot | done].
    split; [done |]. exists id, url. split; [done |]. by apply Hfound.
Qed.

Lemma old_group_redirection_process_response_witness :
  OldGroupRedirectionMiddleware.process_response (django:=Example.site)
    Example.not_found
    (Example.get "/en-US/group/7-rust" "/group/7-rust" AnonymousUser) =
  (Returned (HttpResponseRedirect "/group/rust?q=x%20y"),
   Example.get "/en-US/group/7-rust" "/group/7-rust" AnonymousUser)
  ∧
  OldGroupRedirectionMiddleware.process_response (django:=Example.site)
    Example.not_found
    (Example.get "/en-US/group/7-go" "/group/7-go" AnonymousUser) =
  (Returned Example.not_found,
   Example.get "/en-US/group/7-go" "/group/7-go" AnonymousUser).
Proof.
  split.
  - apply (proj1 (old_group_redirection_process_response (django:=Example.site)
                    Example.not_found
                    (Example.get "/en-US/group/7-rust" "/group/7-rust" AnonymousUser))
             "7" "rust" "/group/rust").
    + reflexivity.
    + by repeat split.
    + exists Example.rust. split; [apply list_elem_of_here | reflexivity].
    + reflexivity.
    + exact (Example_with_query "/group/rust" _ _ _).
  - apply (proj2 (old_group_redirection_process_response (django:=Example.site)
                    Example.not_found
                    (Example.get "/en-US/group/7-go" "/group/7-go" AnonymousUser))).
    intros (_ & id & url & Hpath & g & Hg & Hurl).
    apply match_old_group_url_spec in Hpath. vm_compute in Hpath.
    injection Hpath as <- <-.
    cbn in Hg. repeat (apply elem_of_cons in Hg as [-> | Hg]);
      [discriminate Hurl | discriminate Hurl | by apply not_elem_of_nil in Hg].
Defined.

(** ** GroupAliasRedirectionMiddleware *)



(** ** safe_query_string *)

(** C7.  For a request with query string [qs]: inside the context of
    [safe_query_string], [request.META['QUERY_STRING']] reads
    [iri_to_uri(qs)], so a redirecting handler appends [iri_to_uri(qs)]
    to its URL; the block ends as its body ends, by a value or by an
    exception; and in both cases [request.META['QUERY_STRING']] is [qs]
    again afterwards, whatever the body did to the request.  For a
    request without the key the context manager raises [KeyError]
    before it changes anything. *)
Theorem safe_query_string_restores {django : Django} {A}
    (body : M A) (st : State) :
  (∀ qs,
     META (request st) !! "QUERY_STRING" = Some qs →
     (safe_query_string (META_getitem "QUERY_STRING") st).1
       = Returned (iri_to_uri qs)
     ∧ (∃ inside,
          META (request inside) !! "QUERY_STRING" = Some (iri_to_uri qs)
          ∧ (safe_query_string body st).1 = (body inside).1)
     ∧ META (request (safe_query_string body st).2) !! "QUERY_STRING" = Some qs
     ∧ (∀ url,
          GET (request st) ≠ ∅ →
          add_query_string (request st) url st =
            (Returned (url +:+ "?" +:+ iri_to_uri qs), st)))
  ∧
  (META (request st) !! "QUERY_STRING" = None →
   safe_query_string body st = (Raised (KeyError "QUERY_STRING"), st)).
Proof.
  split; [|apply safe_query_string_no_key].
  intros qs Hqs. split_and!.
  - rewrite (safe_query_string_run _ _ qs Hqs).
    unfold META_getitem, META_setitem. cbn -[set_META].
    change (META (set_META ?f ?r)) with (f (META r)).
    by rewrite lookup_insert_eq.
  - exists (META_setitem "QUERY_STRING" (iri_to_uri qs) st).2. split.
    + unfold META_setitem. cbn -[set_META].
      change (META (set_META ?f ?r)) with (f (META r)).
      apply lookup_insert_eq.
    + rewrite (safe_query_string_run _ _ qs Hqs). by destruct (body _).
  - rewrite (safe_query_string_run _ _ qs Hqs). destruct (body _) as [r st'].
    unfold META_setitem. cbn -[set_META].
    change (META (set_META ?f ?r)) with (f (META r)).
    apply lookup_insert_eq.
  - intros url Hget. apply add_query_string_run. by apply with_query.
Qed.

Lemma safe_query_string_restores_witness :
  (safe_query_string (django:=Example.site) (META_getitem "QUERY_STRING")
     (Example.get "/en-US/bob" "/bob" AnonymousUser)).1 = Returned "q=x%20y"
  ∧ META (request
            (safe_query_string (django:=Example.site)
               (META_setitem "QUERY_STRING" "overwritten";;
                raise (A:=string) DoesNotExist)
               (Example.get "/en-US/bob" "/bob" AnonymousUser)).2)
      !! "QUERY_STRING" = Some "q=x y".
Proof.
  destruct (proj1 (safe_query_string_restores (django:=Example.site)
                     (META_setitem "QUERY_STRING" "overwritten";;
                      raise (A:=string) DoesNotExist)
                     (Example.get "/en-US/bob" "/bob" AnonymousUser))
              "q=x y" eq_refl) as (Hinside & _ & Hafter & _).
  exact (conj Hinside Hafter).
Defined.

(** ** The database *)

(** C8.  Whatever the request, the response and the outcome, each of the
    five [process_response] handlers leaves the rows of [User], [Group]
    and [GroupAlias] as it found them: the database after the call is
    the database before it. *)
Theorem handlers_preserve_database {django : Django}
    (response : HttpResponse) (st : State) :
  database (PermissionDeniedMiddleware.process_response response st).2 = database st
  ∧ database (RemoveSlashMiddleware.process_response response st).2 = database st
  ∧ database (UsernameRedirectionMiddleware.process_response response st).2 = database st
  ∧ database (OldGroupRedirectionMiddleware.process_response response st).2 = database st
  ∧ database (GroupAliasRedirectionMiddleware.process_response response st).2 = database st.
Proof.
  split_and!; revert st;
    change (preserves_database (PermissionDeniedMiddleware.process_response response))
      || change (preserves_database (RemoveSlashMiddleware.process_response response))
      || change (preserves_database (UsernameRedirectionMiddleware.process_response response))
      || change (preserves_database (OldGroupRedirectionMiddleware.process_response response))
      || change (preserves_database (GroupAliasRedirectionMiddleware.process_response response)).
  - unfold PermissionDeniedMiddleware.process_response. frame.
  - unfold RemoveSlashMiddleware.process_response. frame.
  - unfold UsernameRedirectionMiddleware.process_response. frame.
  - unfold OldGroupRedirectionMiddleware.process_response. frame.
  - unfold GroupAliasRedirectionMiddleware.process_response. frame.
Qed.

(** ** The trailing slash of a profile URL *)

Lemma lstrip_head (c : ascii) (s : string) :
  Py.startswith (Py.lstrip c s) (String c "") = false.
Proof.
  induction s as [|a s IH]; [done |].
  cbn [Py.lstrip]. case_bool_decide as Ha; [done |].
  cbn [Py.startswith]. by rewrite bool_decide_eq_false_2.
Qed.

Lemma rstrip_head (c : ascii) (s : string) :
  Py.startswith s (String c "") = false →
  Py.startswith (Py.rstrip c s) (String c "") = false.
Proof.
  destruct s as [|a s]; [done |]. cbn [Py.startswith Py.rstrip].
  rewrite andb_true_r. intros Ha.
  destruct (Py.rstrip c s); [|cbn [Py.startswith]; by rewrite Ha].
  rewrite Ha. cbn [Py.startswith]. by rewrite Ha.
Qed.

Lemma strip_leading_slash (s : string) :
  Py.startswith s "/" = true →
  Py.strip "/" (Py.slice_from_1 s) = Py.strip "/" s.
Proof.
  intros [rest ->]%startswith_spec. change ("/" +:+ rest) with (String "/" rest).
  unfold Py.strip. cbn [Py.slice_from_1 Py.lstrip].
  by rewrite bool_decide_eq_true_2.
Qed.

(** C10.  When [UsernameRedirectionMiddleware] redirects a request
    whose [path_info] ends with a slash, the name it looked up is
    [path_info[1:].strip('/')], which neither starts nor ends with a
    slash (and is [path_info.strip('/')] when [path_info] starts with a
    slash), while the redirect goes to ['/u' + path_info], which still
    ends with the slash; for [path_info = '/<name>/'] the lookup is for
    [<name>] and the target is ['/u/<name>/']. *)
Theorem username_redirection_keeps_trailing_slash {django : Django}
    (response : HttpResponse) (st : State) :
  status_code response = 404 →
  Py.startswith (path_info (request st)) "/u/" = false →
  is_valid_path (path_info (request st)) = false →
  (∃ u, u ∈ User_objects (database st)
        ∧ same_name (username u)
            (UsernameRedirectionMiddleware.lookup_name (request st))) →
  Py.endswith (path_info (request st)) "/" = true →
  ∀ target,
    with_query_string (request st) ("/u" +:+ path_info (request st)) target →
    UsernameRedirectionMiddleware.process_response response st =
      (Returned (HttpResponseRedirect target), st)
    ∧ Py.endswith ("/u" +:+ path_info (request st)) "/" = true
    ∧ Py.endswith (UsernameRedirectionMiddleware.lookup_name (request st)) "/" = false
    ∧ Py.startswith (UsernameRedirectionMiddleware.lookup_name (request st)) "/" = false
    ∧ (Py.startswith (path_info (request st)) "/" = true →
       UsernameRedirectionMiddleware.lookup_name (request st)
         = Py.strip "/" (path_info (request st)))
    ∧ (∀ name,
         path_info (request st) = "/" +:+ name +:+ "/" →
         Py.all_chars not_slash name = true →
         UsernameRedirectionMiddleware.lookup_name (request st) = name
         ∧ "/u" +:+ path_info (request st) = "/u/" +:+ name +:+ "/").
Proof.
  intros H404 Hprefix Hinvalid Huser Hslash target Htarget.
  split; [by apply username_redirection_run |].
  unfold UsernameRedirectionMiddleware.lookup_name in *. split_and!.
  - by apply endswith_app.
  - apply rstrip_not_endswith.
  - apply rstrip_head, lstrip_head.
  - apply strip_leading_slash.
  - intros name -> Hname. split; [|done].
    change ("/" +:+ name +:+ "/") with (String "/" (name +:+ "/")).
    cbn [Py.slice_from_1]. by apply strip_app_slash_free.
Qed.

Lemma username_redirection_keeps_trailing_slash_witness :
  UsernameRedirectionMiddleware.process_response (django:=Example.site)
    Example.not_found (Example.get "/en-US/bob/" "/bob/" AnonymousUser) =
  (Returned (HttpResponseRedirect "/u/bob/?q=x%20y"),
   Example.get "/en-US/bob/" "/bob/" AnonymousUser)
  ∧ UsernameRedirectionMiddleware.lookup_name
      (request (Example.get "/en-US/bob/" "/bob/" AnonymousUser)) = "bob".
Proof.
  destruct (username_redirection_keeps_trailing_slash (django:=Example.site)
              Example.not_found
              (Example.get "/en-US/bob/" "/bob/" AnonymousUser)
              eq_refl eq_refl eq_refl
              (ex_intro _ (mkUser "Bob")
                 (conj (list_elem_of_further _ _ _
                          (list_elem_of_here _ _)) eq_refl))
              eq_refl
              "/u/bob/?q=x%20y" (Example_with_query "/u/bob/" _ _ _))
    as (Hrun & _ & _ & _ & _ & Hname).
  split; [exact Hrun |]. exact (proj1 (Hname "bob" eq_refl eq_refl)).
Defined.

(** ** Outside the conditions of the redirects

    The redirecting branches above assume what the framework provides:
    a [QUERY_STRING] in [request.META] when [request.GET] is not empty,
    a URL pattern that [reverse] resolves, and one row per alias [url].
    The handlers do not check any of the three; where one fails, the
    exception of the failing call leaves the handler. *)

Example missing_query_string_raises :
  (RemoveSlashMiddleware.process_response (django:=Example.site) Example.not_found
     {| request := {| path := "/en-US/about/"; path_info := "/about/";
                      GET := {[ "q" := ["x"] ]}; META := ∅;
                      user := AnonymousUser |};
        database := Example.db; log := [] |}).1
  = Raised (KeyError "QUERY_STRING").
Proof. reflexivity. Qed.

Example unresolved_reverse_raises :
  (OldGroupRedirectionMiddleware.process_response
     (django:={| is_valid_path := λ _, false;
                 reverse := λ _ _, None;
                 iri_to_uri := λ s, s |})
     Example.not_found
     (Example.get "/en-US/group/7-rust" "/group/7-rust" AnonymousUser)).1
  = Raised (NoReverseMatch "group").
Proof. reflexivity. Qed.

Example duplicate_alias_raises :
  (GroupAliasRedirectionMiddleware.process_response (django:=Example.site)
     Example.not_found
     {| request := request (Example.get "/en-US/group/rustaceans"
                              "/group/rustaceans" AnonymousUser);
        database :=
          {| User_objects := []; Group_objects := [Example.rust];
             GroupAlias_objects :=
               [GroupAlias.mk "Rustaceans" "rustaceans" Example.rust;
                GroupAlias.mk "Crabs" "rustaceans" Example.rust] |};
        log := [] |}).1
  = Raised MultipleObjectsReturned.
Proof. reflexivity. Qed.

(** * Further properties of the handlers *)

(** ** Computations that leave the state alone *)

Lemma leaves_ret {A} (a : A) : leaves_state (mret a).
Proof. by intros st. Qed.

Lemma leaves_raise {A} (e : Exception) : leaves_state (raise (A:=A) e).
Proof. by intros st. Qed.

Lemma leaves_bind {A B} (m : M A) (f : A → M B) :
  leaves_state m → (∀ a, leaves_state (f a)) → leaves_state (m ≫= f).
Proof.
  intros Hm Hf st. unfold mbind, M_bind.
  specialize (Hm st). destruct (m st) as [[a|e] st']; cbn in *; subst st'.
  - apply Hf.
  - done.
Qed.

Lemma leaves_get_request : leaves_state get_request.
Proof. by intros st. Qed.

Lemma leaves_META_getitem (key : string) : leaves_state (META_getitem key).
Proof. intros st. unfold META_getitem. by destruct (_ !! _). Qed.

Lemma leaves_User_exists (value : string) :
  leaves_state (User_filter_username_iexact_exists value).
Proof. by intros st. Qed.

Lemma leaves_Group_exists (value : string) :
  leaves_state (Group_filter_url_exists value).
Proof. by intros st. Qed.

Lemma leaves_GroupAlias_exists (value : string) :
  leaves_state (GroupAlias_filter_url_exists value).
Proof. by intros st. Qed.

Lemma leaves_GroupAlias_get (value : string) :
  leaves_state (GroupAlias_get_url value).
Proof.
  intros st. unfold GroupAlias_get_url.
  by destruct (GroupAlias_filter_url _ _) as [|a [|b l]].
Qed.

#[export] Hint Resolve leaves_ret leaves_raise leaves_bind leaves_get_request
  leaves_META_getitem leaves_User_exists leaves_Group_exists
  leaves_GroupAlias_exists leaves_GroupAlias_get : unchanged.
#[export] Hint Extern 2 (leaves_state (if ?b then _ else _)) =>
  destruct b : unchanged.
#[export] Hint Extern 2 (leaves_state (match ?x with _ => _ end)) =>
  destruct x : unchanged.

Section Unchanged.
Context {django : Django}.

Lemma leaves_reverse_url (viewname : string) (args : list string) :
  leaves_state (reverse_url viewname args).
Proof. unfold reverse_url. unchanged. Qed.

(** The shared lines put [META] back as it was, or raise before they
    touch it. *)
Lemma leaves_add_query_string (req : HttpRequest) (newurl : string) :
  leaves_state (add_query_string req newurl).
Proof.
  intros st. unfold add_query_string. destruct (bool_decide _); [|done].
  destruct (META (request st) !! "QUERY_STRING") as [qs|] eqn:Hqs.
  - rewrite (safe_query_string_run _ _ qs Hqs).
    unfold META_getitem, META_setitem, mbind, M_bind, mret, M_ret.
    cbn -[set_META]. change (META (set_META ?f ?r)) with (f (META r)).
    rewrite lookup_insert_eq. cbn [request database log snd].
    rewrite set_META_restore by done. apply State_eta.
  - by rewrite safe_query_string_no_key.
Qed.

Lemma remove_slash_leaves_state (response : HttpResponse) :
  leaves_state (RemoveSlashMiddleware.process_response response).
Proof.
  unfold RemoveSlashMiddleware.process_response.
  pose proof leaves_reverse_url. pose proof leaves_add_query_string. unchanged.
Qed.

Lemma username_redirection_leaves_state (response : HttpResponse) :
  leaves_state (UsernameRedirectionMiddleware.process_response response).
Proof.
  unfold UsernameRedirectionMiddleware.process_response.
  pose proof leaves_reverse_url. pose proof leaves_add_query_string. unchanged.
Qed.

Lemma old_group_leaves_state (response : HttpResponse) :
  leaves_state (OldGroupRedirectionMiddleware.process_response response).
Proof.
  unfold OldGroupRedirectionMiddleware.process_response.
  pose proof leaves_reverse_url. pose proof leaves_add_query_string. unchanged.
Qed.

Lemma group_alias_leaves_state (response : HttpResponse) :
  leaves_state (GroupAliasRedirectionMiddleware.process_response response).
Proof.
  unfold GroupAliasRedirectionMiddleware.process_response.
  pose proof leaves_reverse_url. pose proof leaves_add_query_string. unchanged.
Qed.

End Unchanged.

(** X1.  Whatever the request, the response and the outcome, each of
    the four redirecting handlers hands back request, database and log
    exactly as it received them: the rewrite of
    [request.META['QUERY_STRING']] is undone before the handler
    returns, and a missing key or an unresolved [reverse] raises before
    anything was written. *)
Theorem redirect_handlers_leave_state {django : Django}
    (response : HttpResponse) (st : State) :
  (RemoveSlashMiddleware.process_response response st).2 = st
  ∧ (UsernameRedirectionMiddleware.process_response response st).2 = st
  ∧ (OldGroupRedirectionMiddleware.process_response response st).2 = st
  ∧ (GroupAliasRedirectionMiddleware.process_response response st).2 = st.
Proof.
  split_and!.
  - apply remove_slash_leaves_state.
  - apply username_redirection_leaves_state.
  - apply old_group_leaves_state.
  - apply group_alias_leaves_state.
Qed.

(** ** The log of PermissionDeniedMiddleware *)

(** X2.  For a 403 or 405 response [PermissionDeniedMiddleware] writes
    exactly one debug line and changes nothing else: the "authenticated"
    line for a logged-in user, otherwise "Response was forbidden" for an
    instance of [HttpResponseForbidden] and "Response was not allowed"
    for the rest.  No intercepted response goes unlogged. *)
Theorem permission_denied_logs_one_line
    (response : HttpResponse) (st : State) :
  is_a response Cls.HttpResponseForbidden ∨ is_a response Cls.HttpResponseNotAllowed →
  (PermissionDeniedMiddleware.process_response response st).2 =
    {| request := request st; database := database st;
       log := log st ++
         [ if is_authenticated (user (request st)) then
             "Permission denied middleware, user was authenticated, sending 500"
           else if Cls.issubclass (response_class response) Cls.HttpResponseForbidden
           then "Response was forbidden"
           else "Response was not allowed" ] |}.
Proof.
  intros Hclass. unfold PermissionDeniedMiddleware.process_response.
  unfold mbind, M_bind, get_request.
  rewrite (proj2 (isinstance_forbidden_or_not_allowed response) Hclass).
  destruct (is_authenticated (user (request st))); [done |].
  unfold isinstance, is_a in *. cbn [existsb]. rewrite !orb_false_r.
  destruct (Cls.issubclass (response_class response) Cls.HttpResponseForbidden);
    [done |].
  destruct Hclass as [Hf | ->]; done.
Qed.

Lemma permission_denied_logs_one_line_witness :
  log (PermissionDeniedMiddleware.process_response Example.not_allowed
         (Example.get "/en-US/invite" "/invite" AnonymousUser)).2
    = ["Response was not allowed"]
  ∧ log (PermissionDeniedMiddleware.process_response Example.forbidden
           (Example.get "/en-US/invite" "/invite" (LoggedIn (mkUser "alice")))).2
    = ["Permission denied middleware, user was authenticated, sending 500"].
Proof.
  split.
  - rewrite (permission_denied_logs_one_line Example.not_allowed
               (Example.get "/en-US/invite" "/invite" AnonymousUser)
               (or_intror eq_refl)).
    reflexivity.
  - rewrite (permission_denied_logs_one_line Example.forbidden
               (Example.get "/en-US/invite" "/invite" (LoggedIn (mkUser "alice")))
               (or_introl eq_refl)).
    reflexivity.
Defined.

(** ** When the handlers raise *)

Section Raising.
Context {django : Django}.

(** The three ways the shared lines end. *)
Lemma add_query_string_cases (st : State) (url : string) :
  (GET (request st) = ∅
   ∧ add_query_string (request st) url st = (Returned url, st))
  ∨ (GET (request st) ≠ ∅
     ∧ ∃ qs, META (request st) !! "QUERY_STRING" = Some qs
             ∧ add_query_string (request st) url st =
                 (Returned (url +:+ "?" +:+ iri_to_uri qs), st))
  ∨ (GET (request st) ≠ ∅
     ∧ META (request st) !! "QUERY_STRING" = None
     ∧ add_query_string (request st) url st =
         (Raised (KeyError "QUERY_STRING"), st)).
Proof.
  destruct (decide (GET (request st) = ∅)) as [Hget | Hget].
  { left. split; [done |]. by apply add_query_string_run, without_query. }
  right. destruct (META (request st) !! "QUERY_STRING") as [qs|] eqn:Hqs.
  - left. split; [done |]. exists qs. split; [done |].
    by apply add_query_string_run, with_query.
  - right. split_and!; [done.. |].
    unfold add_query_string. rewrite bool_decide_eq_true_2 by done.
    by apply safe_query_string_no_key.
Qed.

End Raising.

(** X3.  [RemoveSlashMiddleware.process_response] raises in one
    situation only: the redirect applies, [request.GET] is not empty
    and [request.META] has no ['QUERY_STRING'].  The exception is then
    the [KeyError] of that key; the handler raises nothing else. *)
Theorem remove_slash_raises_iff {django : Django}
    (response : HttpResponse) (st : State) (e : Exception) :
  (RemoveSlashMiddleware.process_response response st).1 = Raised e
  ↔ e = KeyError "QUERY_STRING"
    ∧ status_code response = 404
    ∧ Py.endswith (path_info (request st)) "/" = true
    ∧ is_valid_path (path_info (request st)) = false
    ∧ is_valid_path (Py.slice_to_last (path_info (request st))) = true
    ∧ GET (request st) ≠ ∅
    ∧ META (request st) !! "QUERY_STRING" = None.
Proof.
  unfold RemoveSlashMiddleware.process_response.
  rewrite (bind_Returned get_request _ st st (request st) eq_refl).
  unfold RemoveSlashMiddleware.applies.
  destruct (_ && _) eqn:Hcond.
  - repeat (apply andb_true_iff in Hcond as [Hcond ?]).
    apply bool_decide_eq_true in Hcond.
    assert (is_valid_path (path_info (request st)) = false)
      by by apply negb_true_iff.
    destruct (add_query_string_cases st (Py.slice_to_last (path (request st))))
      as [[Hget Hrun] | [(Hget & qs & Hqs & Hrun) | (Hget & Hqs & Hrun)]].
    + rewrite (bind_Returned _ _ _ _ _ Hrun). unfold mret, M_ret; cbn [fst]. split; [done |]. tauto.
    + rewrite (bind_Returned _ _ _ _ _ Hrun). unfold mret, M_ret; cbn [fst]. split; [done |].
      intros (_ & _ & _ & _ & _ & _ & Hnone). congruence.
    + rewrite (bind_Raised _ _ _ _ _ Hrun). unfold mret, M_ret; cbn [fst]. split.
      * by intros [= <-].
      * by intros [-> _].
  - unfold mret, M_ret; cbn [fst]. split; [done |]. intros (_ & H404 & Hslash & Hinvalid & Hvalid & _).
    rewrite bool_decide_eq_true_2, Hslash, Hinvalid, Hvalid in Hcond by done.
    discriminate Hcond.
Qed.

(** X4.  [UsernameRedirectionMiddleware.process_response] raises in
    one situation only: the redirect applies (a 404, a [path_info]
    outside [/u/] that is no valid path, a user of that name),
    [request.GET] is not empty and [request.META] has no
    ['QUERY_STRING'].  The exception is then the [KeyError] of that
    key. *)
Theorem username_redirection_raises_iff {django : Django}
    (response : HttpResponse) (st : State) (e : Exception) :
  (UsernameRedirectionMiddleware.process_response response st).1 = Raised e
  ↔ e = KeyError "QUERY_STRING"
    ∧ status_code response = 404
    ∧ Py.startswith (path_info (request st)) "/u/" = false
    ∧ is_valid_path (path_info (request st)) = false
    ∧ (∃ u, u ∈ User_objects (database st)
            ∧ same_name (username u)
                (Py.strip "/" (Py.slice_from_1 (path_info (request st)))))
    ∧ GET (request st) ≠ ∅
    ∧ META (request st) !! "QUERY_STRING" = None.
Proof.
  unfold UsernameRedirectionMiddleware.process_response.
  rewrite (bind_Returned get_request _ st st (request st) eq_refl).
  destruct (User_exists_spec
              (UsernameRedirectionMiddleware.lookup_name (request st)) st)
    as (found & Hfind & Hfound).
  unfold UsernameRedirectionMiddleware.lookup_name in Hfound.
  destruct (_ && _) eqn:Hcond.
  - repeat (apply andb_true_iff in Hcond as [Hcond ?]).
    apply bool_decide_eq_true in Hcond.
    assert (is_valid_path (path_info (request st)) = false)
      by by apply negb_true_iff.
    assert (Py.startswith (path_info (request st)) "/u/" = false)
      by by apply negb_true_iff.
    rewrite (bind_Returned _ _ _ _ _ Hfind).
    destruct found.
    + assert (∃ u, u ∈ User_objects (database st)
                   ∧ same_name (username u)
                       (Py.strip "/" (Py.slice_from_1 (path_info (request st)))))
        by by apply Hfound.
      destruct (add_query_string_cases st ("/u" +:+ path_info (request st)))
        as [[Hget Hrun] | [(Hget & qs & Hqs & Hrun) | (Hget & Hqs & Hrun)]].
      * rewrite (bind_Returned _ _ _ _ _ Hrun). unfold mret, M_ret; cbn [fst]. split; [done |]. tauto.
      * rewrite (bind_Returned _ _ _ _ _ Hrun). unfold mret, M_ret; cbn [fst]. split; [done |].
        intros (_ & _ & _ & _ & _ & _ & Hnone). congruence.
      * rewrite (bind_Raised _ _ _ _ _ Hrun). unfold mret, M_ret; cbn [fst]. split.
        -- by intros [= <-].
        -- by intros [-> _].
    + unfold mret, M_ret; cbn [fst]. split; [done |]. intros (_ & _ & _ & _ & Huser & _).
      apply Hfound in Huser. discriminate Huser.
  - unfold mret, M_ret; cbn [fst]. split; [done |]. intros (_ & H404 & Hprefix & Hinvalid & _).
    rewrite bool_decide_eq_true_2, Hprefix, Hinvalid in Hcond by done.
    discriminate Hcond.
Qed.

(** X5.  [OldGroupRedirectionMiddleware.process_response] raises in
    two situations only, both on a 404 for an old-style group path
    whose group exists: [reverse] does not resolve the group's URL
    ([NoReverseMatch], raised before the query string is looked at),
    or it does, [request.GET] is not empty and [request.META] has no
    ['QUERY_STRING'] ([KeyError]). *)
Theorem old_group_redirection_raises_iff {django : Django}
    (response : HttpResponse) (st : State) (e : Exception) :
  (OldGroupRedirectionMiddleware.process_response response st).1 = Raised e
  ↔ status_code response = 404
    ∧ ∃ id url,
        old_group_path (path_info (request st)) id url
        ∧ (∃ g, g ∈ Group_objects (database st) ∧ Group.url g = url)
        ∧ ((reverse "group" [url] = None ∧ e = NoReverseMatch "group")
           ∨ (∃ canonical,
                reverse "group" [url] = Some canonical
                ∧ GET (request st) ≠ ∅
                ∧ META (request st) !! "QUERY_STRING" = None
                ∧ e = KeyError "QUERY_STRING")).
Proof.
  unfold OldGroupRedirectionMiddleware.process_response.
  rewrite (bind_Returned get_request _ st st (request st) eq_refl). cbv zeta.
  case_bool_decide as H404;
    [|unfold mret, M_ret; cbn [fst]; split; [done | by intros [? _]]].
  destruct (match_old_group_url _) as [[id url]|] eqn:Hmatch.
  2:{ unfold mret, M_ret; cbn [fst]. split; [done |].
      intros (_ & id & url & Hpath%match_old_group_url_spec & _). congruence. }
  assert (∀ id' url', old_group_path (path_info (request st)) id' url' →
                      url' = url) as Hsame.
  { intros id' url' Hpath%match_old_group_url_spec. congruence. }
  apply match_old_group_url_spec in Hmatch.
  destruct (Group_exists_spec url st) as (found & Hfind & Hfound).
  rewrite (bind_Returned _ _ _ _ _ Hfind). destruct found.
  2:{ unfold mret, M_ret; cbn [fst]. split; [done |].
      intros (_ & id' & url' & Hpath & Hgroup & _).
      rewrite (Hsame _ _ Hpath) in Hgroup. apply Hfound in Hgroup.
      discriminate Hgroup. }
  assert (∃ g, g ∈ Group_objects (database st) ∧ Group.url g = url) as Hgroup
    by by apply Hfound.
  unfold reverse_url. destruct (reverse "group" [url]) as [canonical|] eqn:Hrev.
  - rewrite (bind_Returned (mret canonical) _ st st canonical eq_refl).
    destruct (add_query_string_cases st canonical)
      as [[Hget Hrun] | [(Hget & qs & Hqs & Hrun) | (Hget & Hqs & Hrun)]].
    + rewrite (bind_Returned _ _ _ _ _ Hrun). unfold mret, M_ret; cbn [fst].
      split; [done |].
      intros (_ & id' & url' & Hpath & _ & [[Hnone _] | (c & _ & Hne & _)]).
      * rewrite (Hsame _ _ Hpath) in Hnone. congruence.
      * done.
    + rewrite (bind_Returned _ _ _ _ _ Hrun). unfold mret, M_ret; cbn [fst].
      split; [done |].
      intros (_ & id' & url' & Hpath & _ & [[Hnone _] | (c & _ & _ & Hnokey & _)]).
      * rewrite (Hsame _ _ Hpath) in Hnone. congruence.
      * congruence.
    + rewrite (bind_Raised _ _ _ _ _ Hrun). cbn [fst]. split.
      * intros [= <-]. split; [done |]. exists id, url.
        split_and!; [done.. |]. right. by exists canonical.
      * intros (_ & id' & url' & Hpath & _ & [[Hnone _] | (c & _ & _ & _ & ->)]).
        -- rewrite (Hsame _ _ Hpath) in Hnone. congruence.
        -- done.
  - rewrite (bind_Raised (raise (NoReverseMatch "group")) _ st st _ eq_refl).
    cbn [fst]. split.
    + intros [= <-]. split; [done |]. exists id, url.
      split_and!; [done.. |]. by left.
    + intros (_ & id' & url' & Hpath & _ & [[_ ->] | (c & Hsome & _)]).
      * done.
      * rewrite (Hsame _ _ Hpath) in Hsome. congruence.
Qed.

(** X6.  [GroupAliasRedirectionMiddleware.process_response] raises in
    three situations only, all on a 404 for a [/group/<url>] path:
    several aliases carry that [url] ([MultipleObjectsReturned] from
    [objects.get]); one does and [reverse] does not resolve the URL of
    its group ([NoReverseMatch]); or it resolves, [request.GET] is not
    empty and [request.META] has no ['QUERY_STRING'] ([KeyError]).  In
    particular [objects.get] never raises [DoesNotExist] here: the
    [exists()] test in the condition guards it. *)
Theorem group_alias_redirection_raises_iff {django : Django}
    (response : HttpResponse) (st : State) (e : Exception) :
  ((GroupAliasRedirectionMiddleware.process_response response st).1 = Raised e
   ↔ status_code response = 404
     ∧ ∃ url,
         group_path (path_info (request st)) url
         ∧ ((2 ≤ length (GroupAlias_filter_url url (database st)))%nat
            ∧ e = MultipleObjectsReturned
            ∨ ∃ group_alias,
                GroupAlias_filter_url url (database st) = [group_alias]
                ∧ ((reverse "group" [Group.url (GroupAlias.alias group_alias)] = None
                    ∧ e = NoReverseMatch "group")
                   ∨ (∃ canonical,
                        reverse "group" [Group.url (GroupAlias.alias group_alias)]
                          = Some canonical
                        ∧ GET (request st) ≠ ∅
                        ∧ META (request st) !! "QUERY_STRING" = None
                        ∧ e = KeyError "QUERY_STRING"))))
  ∧ (GroupAliasRedirectionMiddleware.process_response response st).1
      ≠ Raised DoesNotExist.
Proof.
  assert (∀ e,
    (GroupAliasRedirectionMiddleware.process_response response st).1 = Raised e
    ↔ status_code response = 404
      ∧ ∃ url,
          group_path (path_info (request st)) url
          ∧ ((2 ≤ length (GroupAlias_filter_url url (database st)))%nat
             ∧ e = MultipleObjectsReturned
             ∨ ∃ group_alias,
                 GroupAlias_filter_url url (database st) = [group_alias]
                 ∧ ((reverse "group" [Group.url (GroupAlias.alias group_alias)] = None
                     ∧ e = NoReverseMatch "group")
                    ∨ (∃ canonical,
                         reverse "group" [Group.url (GroupAlias.alias group_alias)]
                           = Some canonical
                         ∧ GET (request st) ≠ ∅
                         ∧ META (request st) !! "QUERY_STRING" = None
                         ∧ e = KeyError "QUERY_STRING")))) as Hiff.
  2:{ split; [apply Hiff |].
      intros (_ & url & _ & [[_ He] | (a & _ & [[_ He] | (c & _ & _ & _ & He)])])%Hiff;
        discriminate He. }
  clear e. intros e.
  unfold GroupAliasRedirectionMiddleware.process_response.
  rewrite (bind_Returned get_request _ st st (request st) eq_refl). cbv zeta.
  case_bool_decide as H404;
    [|unfold mret, M_ret; cbn [fst]; split; [done | by intros [? _]]].
  destruct (match_group_url _) as [url|] eqn:Hmatch.
  2:{ unfold mret, M_ret; cbn [fst]. split; [done |].
      intros (_ & url & Hpath%match_group_url_spec & _). congruence. }
  assert (∀ url', group_path (path_info (request st)) url' → url' = url) as Hsame.
  { intros url' Hpath%match_group_url_spec. congruence. }
  apply match_group_url_spec in Hmatch.
  destruct (GroupAlias_filter_url url (database st)) as [|a [|b l]] eqn:Hfilter.
  - rewrite (bind_Returned (GroupAlias_filter_url_exists url) _ st st false)
      by (unfold GroupAlias_filter_url_exists; by rewrite Hfilter).
    unfold mret, M_ret; cbn [fst]. split; [done |].
    intros (_ & url' & Hpath & Hcases). rewrite (Hsame _ Hpath), Hfilter in Hcases.
    destruct Hcases as [[Hlen _] | (a & Ha & _)]; [cbn in Hlen; lia | done].
  - rewrite (bind_Returned (GroupAlias_filter_url_exists url) _ st st true)
      by (unfold GroupAlias_filter_url_exists; by rewrite Hfilter).
    rewrite (bind_Returned (GroupAlias_get_url url) _ st st a)
      by (unfold GroupAlias_get_url; by rewrite Hfilter).
    unfold reverse_url.
    destruct (reverse "group" [Group.url (GroupAlias.alias a)])
      as [canonical|] eqn:Hrev.
    + rewrite (bind_Returned (mret canonical) _ st st canonical eq_refl).
      destruct (add_query_string_cases st canonical)
        as [[Hget Hrun] | [(Hget & qs & Hqs & Hrun) | (Hget & Hqs & Hrun)]].
      * rewrite (bind_Returned _ _ _ _ _ Hrun). unfold mret, M_ret; cbn [fst].
        split; [done |]. intros (_ & url' & Hpath & Hcases).
        rewrite (Hsame _ Hpath), Hfilter in Hcases.
        destruct Hcases as [[Hlen _] | (a' & [= <-] & [[Hn _] | (c & _ & Hne & _)])];
          [cbn in Hlen; lia | congruence | done].
      * rewrite (bind_Returned _ _ _ _ _ Hrun). unfold mret, M_ret; cbn [fst].
        split; [done |]. intros (_ & url' & Hpath & Hcases).
        rewrite (Hsame _ Hpath), Hfilter in Hcases.
        destruct Hcases as [[Hlen _] | (a' & [= <-] & [[Hn _] | (c & _ & _ & Hk & _)])];
          [cbn in Hlen; lia | congruence | congruence].
      * rewrite (bind_Raised _ _ _ _ _ Hrun). cbn [fst]. split.
        -- intros [= <-]. split; [done |]. exists url. split; [done |].
           right. exists a. split; [done |]. right. by exists canonical.
        -- intros (_ & url' & Hpath & Hcases).
           rewrite (Hsame _ Hpath), Hfilter in Hcases.
           destruct Hcases
             as [[Hlen _] | (a' & [= <-] & [[Hn _] | (c & _ & _ & _ & ->)])];
             [cbn in Hlen; lia | congruence | done].
    + rewrite (bind_Raised (raise (NoReverseMatch "group")) _ st st _ eq_refl).
      cbn [fst]. split.
      * intros [= <-]. split; [done |]. exists url. split; [done |].
        right. exists a. split; [done |]. by left.
      * intros (_ & url' & Hpath & Hcases).
        rewrite (Hsame _ Hpath), Hfilter in Hcases.
        destruct Hcases as [[Hlen _] | (a' & [= <-] & [[_ ->] | (c & Hs & _)])];
          [cbn in Hlen; lia | done | congruence].
  - rewrite (bind_Returned (GroupAlias_filter_url_exists url) _ st st true)
      by (unfold GroupAlias_filter_url_exists; by rewrite Hfilter).
    rewrite (bind_Raised (GroupAlias_get_url url) _ st st MultipleObjectsReturned)
      by (unfold GroupAlias_get_url; by rewrite Hfilter).
    cbn [fst]. split.
    + intros [= <-]. split; [done |]. exists url. split; [done |].
      left. rewrite Hfilter. split; [cbn; lia | done].
    + intros (_ & url' & Hpath & Hcases).
      rewrite (Hsame _ Hpath), Hfilter in Hcases.
      destruct Hcases as [[_ ->] | (a' & Ha & _)]; done.
Qed.

(** ** The handlers in a chain *)

Lemma returns_given (response : HttpResponse) :
  returns_given_or_other response (mret response).
Proof. intros st r st' [= <- _]. by left. Qed.

Lemma returns_redirect (response : HttpResponse) (url : string) :
  returns_given_or_other response (mret (HttpResponseRedirect url)).
Proof. intros st r st' [= <- _]. by right. Qed.

Lemma returns_permanent_redirect (response : HttpResponse) (url : string) :
  returns_given_or_other response (mret (HttpResponsePermanentRedirect url)).
Proof. intros st r st' [= <- _]. by right. Qed.

Lemma returns_bind {A} (response : HttpResponse) (m : M A)
    (f : A → M HttpResponse) :
  (∀ a, returns_given_or_other response (f a)) →
  returns_given_or_other response (m ≫= f).
Proof.
  intros Hf st r st'. unfold mbind, M_bind.
  destruct (m st) as [[a|e] st1]; [apply Hf | done].
Qed.

Section Chain.
Context {django : Django}.

Lemma remove_slash_returns (response : HttpResponse) :
  returns_given_or_other response
    (RemoveSlashMiddleware.process_response response).
Proof.
  unfold RemoveSlashMiddleware.process_response.
  apply returns_bind; intros req. destruct (RemoveSlashMiddleware.applies _ _).
  - apply returns_bind; intros url. apply returns_permanent_redirect.
  - apply returns_given.
Qed.

Lemma username_redirection_returns (response : HttpResponse) :
  returns_given_or_other response
    (UsernameRedirectionMiddleware.process_response response).
Proof.
  unfold UsernameRedirectionMiddleware.process_response.
  apply returns_bind; intros req. destruct (_ && _); [|apply returns_given].
  apply returns_bind; intros [|]; [|apply returns_given].
  apply returns_bind; intros url. apply returns_redirect.
Qed.

Lemma old_group_returns (response : HttpResponse) :
  returns_given_or_other response
    (OldGroupRedirectionMiddleware.process_response response).
Proof.
  unfold OldGroupRedirectionMiddleware.process_response.
  apply returns_bind; intros req. cbv zeta.
  destruct (bool_decide _); [|apply returns_given].
  destruct (match_old_group_url _) as [[id url]|]; [|apply returns_given].
  apply returns_bind; intros [|]; [|apply returns_given].
  do 2 (apply returns_bind; intros ?). apply returns_redirect.
Qed.

Lemma group_alias_returns (response : HttpResponse) :
  returns_given_or_other response
    (GroupAliasRedirectionMiddleware.process_response response).
Proof.
  unfold GroupAliasRedirectionMiddleware.process_response.
  apply returns_bind; intros req. cbv zeta.
  destruct (bool_decide _); [|apply returns_given].
  destruct (match_group_url _) as [url|]; [|apply returns_given].
  apply returns_bind; intros [|]; [|apply returns_given].
  do 3 (apply returns_bind; intros ?). apply returns_redirect.
Qed.

(** A response that is not a 404 passes the four redirecting handlers. *)
Lemma not_404_passes (response : HttpResponse) (st : State) :
  status_code response ≠ 404 →
  RemoveSlashMiddleware.process_response response st = (Returned response, st)
  ∧ UsernameRedirectionMiddleware.process_response response st
    = (Returned response, st)
  ∧ OldGroupRedirectionMiddleware.process_response response st
    = (Returned response, st)
  ∧ GroupAliasRedirectionMiddleware.process_response response st
    = (Returned response, st).
Proof.
  intros H404. split_and!.
  - unfold RemoveSlashMiddleware.process_response, RemoveSlashMiddleware.applies.
    rewrite (bind_Returned get_request _ st st (request st) eq_refl).
    by rewrite bool_decide_eq_false_2.
  - unfold UsernameRedirectionMiddleware.process_response.
    rewrite (bind_Returned get_request _ st st (request st) eq_refl).
    by rewrite bool_decide_eq_false_2.
  - unfold OldGroupRedirectionMiddleware.process_response.
    rewrite (bind_Returned get_request _ st st (request st) eq_refl).
    by rewrite bool_decide_eq_false_2.
  - unfold GroupAliasRedirectionMiddleware.process_response.
    rewrite (bind_Returned get_request _ st st (request st) eq_refl).
    by rewrite bool_decide_eq_false_2.
Qed.

End Chain.

(** A response of another class passes [PermissionDeniedMiddleware]. *)
Lemma other_class_passes (response : HttpResponse) (st : State) :
  isinstance response [Cls.HttpResponseForbidden; Cls.HttpResponseNotAllowed]
    = false →
  PermissionDeniedMiddleware.process_response response st = (Returned response, st).
Proof.
  intros Hclass. unfold PermissionDeniedMiddleware.process_response.
  unfold mbind, M_bind, get_request. by rewrite Hclass.
Qed.

(** X7.  A redirect, temporary or permanent, passes all five handlers
    untouched and without any change of state: once one handler of the
    chain has answered with a redirect, no other handler rewrites it,
    whatever the order of the chain. *)
Theorem redirects_pass_every_handler {django : Django}
    (url : string) (st : State) :
  Forall
    (λ r,
       PermissionDeniedMiddleware.process_response r st = (Returned r, st)
       ∧ RemoveSlashMiddleware.process_response r st = (Returned r, st)
       ∧ UsernameRedirectionMiddleware.process_response r st = (Returned r, st)
       ∧ OldGroupRedirectionMiddleware.process_response r st = (Returned r, st)
       ∧ GroupAliasRedirectionMiddleware.process_response r st = (Returned r, st))
    [HttpResponseRedirect url; HttpResponsePermanentRedirect url].
Proof.
  repeat apply Forall_cons_2; [| |apply Forall_nil_2];
    (split; [by apply other_class_passes | by apply not_404_passes]).
Qed.

(** X8.  Each of the four redirecting handlers is idempotent: handed
    the response it has just returned, in the state it has just left,
    it returns that response again. *)
Theorem redirect_handlers_idempotent {django : Django}
    (response r : HttpResponse) (st st' : State) :
  (RemoveSlashMiddleware.process_response response st = (Returned r, st') →
   RemoveSlashMiddleware.process_response r st' = (Returned r, st'))
  ∧ (UsernameRedirectionMiddleware.process_response response st = (Returned r, st') →
     UsernameRedirectionMiddleware.process_response r st' = (Returned r, st'))
  ∧ (OldGroupRedirectionMiddleware.process_response response st = (Returned r, st') →
     OldGroupRedirectionMiddleware.process_response r st' = (Returned r, st'))
  ∧ (GroupAliasRedirectionMiddleware.process_response response st = (Returned r, st') →
     GroupAliasRedirectionMiddleware.process_response r st' = (Returned r, st')).
Proof.
  split_and!; intros Hrun.
  - pose proof (remove_slash_leaves_state response st) as Hst.
    rewrite Hrun in Hst. cbn in Hst. subst st'.
    destruct (remove_slash_returns response _ _ _ Hrun) as [-> | H404]; [done |].
    by apply not_404_passes.
  - pose proof (username_redirection_leaves_state response st) as Hst.
    rewrite Hrun in Hst. cbn in Hst. subst st'.
    destruct (username_redirection_returns response _ _ _ Hrun) as [-> | H404];
      [done |].
    by apply not_404_passes.
  - pose proof (old_group_leaves_state response st) as Hst.
    rewrite Hrun in Hst. cbn in Hst. subst st'.
    destruct (old_group_returns response _ _ _ Hrun) as [-> | H404]; [done |].
    by apply not_404_passes.
  - pose proof (group_alias_leaves_state response st) as Hst.
    rewrite Hrun in Hst. cbn in Hst. subst st'.
    destruct (group_alias_returns response _ _ _ Hrun) as [-> | H404]; [done |].
    by apply not_404_passes.
Qed.

Lemma redirect_handlers_idempotent_witness :
  RemoveSlashMiddleware.process_response (django:=Example.site)
    (HttpResponsePermanentRedirect "/en-US/about?q=x%20y")
    (Example.get "/en-US/about/" "/about/" AnonymousUser)
  = (Returned (HttpResponsePermanentRedirect "/en-US/about?q=x%20y"),
     Example.get "/en-US/about/" "/about/" AnonymousUser).
Proof.
  apply (proj1 (redirect_handlers_idempotent (django:=Example.site)
                  Example.not_found
                  (HttpResponsePermanentRedirect "/en-US/about?q=x%20y")
                  (Example.get "/en-US/about/" "/about/" AnonymousUser)
                  (Example.get "/en-US/about/" "/about/" AnonymousUser))).
  by vm_compute.
Defined.

(** ** What safe_query_string writes *)

(** X9.  [safe_query_string] writes one key of one dictionary.  With
    the key present, the body starts in the state of the caller with
    only [META['QUERY_STRING']] replaced, and the state after the block
    is the state the body left with only [META['QUERY_STRING']]
    replaced: every other key of [META], the other attributes of the
    request, the database and the log are the body's.  So around a body
    that leaves the state alone the whole block leaves it alone. *)
Theorem safe_query_string_writes_one_key {django : Django} {A}
    (body : M A) (st : State) (qs : string) :
  META (request st) !! "QUERY_STRING" = Some qs →
  ∃ inside,
    (∀ key, key ≠ "QUERY_STRING" →
       META (request inside) !! key = META (request st) !! key)
    ∧ (path (request inside), path_info (request inside), GET (request inside),
       user (request inside), database inside, log inside)
      = (path (request st), path_info (request st), GET (request st),
         user (request st), database st, log st)
    ∧ (∀ key, key ≠ "QUERY_STRING" →
         META (request (safe_query_string body st).2) !! key
         = META (request (body inside).2) !! key)
    ∧ (path (request (safe_query_string body st).2),
       path_info (request (safe_query_string body st).2),
       GET (request (safe_query_string body st).2),
       user (request (safe_query_string body st).2),
       database (safe_query_string body st).2,
       log (safe_query_string body st).2)
      = (path (request (body inside).2), path_info (request (body inside).2),
         GET (request (body inside).2), user (request (body inside).2),
         database (body inside).2, log (body inside).2)
    ∧ ((∀ s, (body s).2 = s) → (safe_query_string body st).2 = st).
Proof.
  intros Hqs.
  exists (META_setitem "QUERY_STRING" (iri_to_uri qs) st).2.
  rewrite (safe_query_string_run _ _ qs Hqs).
  destruct (body _) as [r after] eqn:Hbody. split_and!.
  - intros key Hkey. unfold META_setitem. cbn -[set_META].
    change (META (set_META ?f ?r)) with (f (META r)).
    by apply lookup_insert_ne.
  - done.
  - intros key Hkey. unfold META_setitem. cbn -[set_META].
    change (META (set_META ?f ?r)) with (f (META r)).
    by apply lookup_insert_ne.
  - done.
  - intros Hpure. specialize (Hpure (META_setitem "QUERY_STRING" (iri_to_uri qs) st).2).
    rewrite Hbody in Hpure. cbn [snd] in Hpure. subst after.
    unfold META_setitem. cbn -[set_META].
    rewrite set_META_restore by done. apply State_eta.
Qed.

Lemma safe_query_string_writes_one_key_witness :
  META (request
          (safe_query_string (django:=Example.site)
             (META_setitem "REQUEST_METHOD" "HEAD")
             (Example.get "/en-US/bob" "/bob" AnonymousUser)).2)
    !! "REQUEST_METHOD" = Some "HEAD"
  ∧ (safe_query_string (django:=Example.site) (mret tt)
       (Example.get "/en-US/bob" "/bob" AnonymousUser)).2
    = Example.get "/en-US/bob" "/bob" AnonymousUser.
Proof.
  split.
  - destruct (safe_query_string_writes_one_key (django:=Example.site)
                (META_setitem "REQUEST_METHOD" "HEAD")
                (Example.get "/en-US/bob" "/bob" AnonymousUser) "q=x y" eq_refl)
      as (inside & _ & _ & Hkeys & _).
    rewrite (Hkeys "REQUEST_METHOD") by done.
    unfold META_setitem. cbn -[set_META].
    change (META (set_META ?f ?r)) with (f (META r)).
    apply lookup_insert_eq.
  - destruct (safe_query_string_writes_one_key (django:=Example.site)
                (mret tt)
                (Example.get "/en-US/bob" "/bob" AnonymousUser) "q=x y" eq_refl)
      as (inside & _ & _ & _ & _ & Hpure).
    by apply Hpure.
Defined.

(** ** The two patterns *)

Lemma all_chars_app (p : ascii → bool) (s t : string) :
  Py.all_chars p (s +:+ t) = Py.all_chars p s && Py.all_chars p t.
Proof.
  induction s as [|a s IH]; [done |].
  rewrite append_cons. cbn [Py.all_chars]. by rewrite IH, andb_assoc.
Qed.

Lemma all_chars_impl (p q : ascii → bool) (s : string) :
  (∀ a, p a = true → q a = true) →
  Py.all_chars p s = true → Py.all_chars q s = true.
Proof.
  intros Hpq. induction s as [|a s IH]; [done |]. cbn [Py.all_chars].
  intros [Ha Hs]%andb_true_iff. by rewrite (Hpq a Ha), (IH Hs).
Qed.

Lemma digit_not_slash (a : ascii) : Py.is_digit a = true → not_slash a = true.
Proof.
  unfold not_slash. intros Hdigit. case_bool_decide as Ha; [|done].
  subst a. discriminate Hdigit.
Qed.

(** X10.  Every path the old-group pattern matches is matched by the
    alias pattern too, with [<id>-<url>] as its [url] group: on an
    old-style path, [GroupAliasRedirectionMiddleware] looks for an
    alias whose url is the id, the hyphen and the url together. *)
Theorem old_group_paths_match_alias_pattern (s id url : string) :
  match_old_group_url s = Some (id, url) →
  match_group_url s = Some (id +:+ "-" +:+ url).
Proof.
  intros (-> & Hid & Hdigits & Hurl & Hns)%match_old_group_url_spec.
  apply match_group_url_spec. split_and!.
  - done.
  - by destruct id.
  - rewrite all_chars_app, (all_chars_impl _ _ _ digit_not_slash Hdigits).
    change ("-" +:+ url) with (String "-" url). cbn [Py.all_chars].
    by rewrite Hns.
Qed.

Lemma old_group_paths_match_alias_pattern_witness :
  match_group_url "/group/7-rust" = Some "7-rust".
Proof.
  exact (old_group_paths_match_alias_pattern "/group/7-rust" "7" "rust" eq_refl).
Defined.

(** X11.  What the two regular expressions accept, in words.  The
    old-group pattern matches exactly the strings
    [/group/<id>-<url>] with [<id>] a non-empty run of digits and
    [<url>] a non-empty string without a slash; its groups are
    determined by the string ([<id>] is the whole run of digits before
    the first hyphen, so [<url>] may itself start with digits or hold
    hyphens).  The alias pattern matches exactly the strings
    [/group/<url>] with [<url>] non-empty and without a slash. *)
Theorem group_patterns_in_words (s : string) :
  (∀ id url,
     match_old_group_url s = Some (id, url)
     ↔ s = "/group/" +:+ id +:+ "-" +:+ url
       ∧ id ≠ "" ∧ Py.all_chars Py.is_digit id = true
       ∧ url ≠ "" ∧ Py.all_chars not_slash url = true)
  ∧ (∀ id url id' url',
       old_group_path s id url → old_group_path s id' url' →
       id = id' ∧ url = url')
  ∧ (∀ url,
       match_group_url s = Some url
       ↔ s = "/group/" +:+ url ∧ url ≠ "" ∧ Py.all_chars not_slash url = true).
Proof.
  split_and!.
  - intros id url. apply match_old_group_url_spec.
  - intros id url id' url' H1%match_old_group_url_spec H2%match_old_group_url_spec.
    rewrite H1 in H2. by injection H2.
  - intros url. apply match_group_url_spec.
Qed.

(** ** No second redirect *)

(** X12.  [UsernameRedirectionMiddleware] never redirects the URL it
    redirects to: a request whose [path_info] is ['/u'] followed by a
    path that starts with a slash gets its response back unchanged,
    whatever the response and the users in the database. *)
Theorem username_redirection_target_passes {django : Django}
    (response : HttpResponse) (st : State) (p : string) :
  Py.startswith p "/" = true →
  path_info (request st) = "/u" +:+ p →
  UsernameRedirectionMiddleware.process_response response st
    = (Returned response, st).
Proof.
  intros [rest ->]%startswith_spec Hpath.
  unfold UsernameRedirectionMiddleware.process_response.
  rewrite (bind_Returned get_request _ st st (request st) eq_refl).
  rewrite Hpath.
  change (Py.startswith ("/u" +:+ "/" +:+ rest) "/u/") with true.
  by rewrite andb_false_r.
Qed.

Lemma username_redirection_target_passes_witness :
  UsernameRedirectionMiddleware.process_response (django:=Example.site)
    Example.not_found (Example.get "/en-US/u/bob" "/u/bob" AnonymousUser)
  = (Returned Example.not_found,
     Example.get "/en-US/u/bob" "/u/bob" AnonymousUser).
Proof.
  exact (username_redirection_target_passes (django:=Example.site)
           Example.not_found
           (Example.get "/en-US/u/bob" "/u/bob" AnonymousUser)
           "/bob" eq_refl eq_refl).
Defined.

(** X13.  [RemoveSlashMiddleware] never redirects the path it redirects
    to: when it redirects a request, a request whose [path_info] is the
    first one's without its last character gets its response back
    unchanged, since that path is a valid one. *)
Theorem remove_slash_target_passes {django : Django}
    (response response' : HttpResponse) (st st' : State) :
  RemoveSlashMiddleware.applies (request st) response = true →
  path_info (request st') = Py.slice_to_last (path_info (request st)) →
  RemoveSlashMiddleware.process_response response' st'
    = (Returned response', st').
Proof.
  intros Happlies Hpath.
  unfold RemoveSlashMiddleware.applies in Happlies.
  apply andb_true_iff in Happlies as [_ Hvalid].
  unfold RemoveSlashMiddleware.process_response, RemoveSlashMiddleware.applies.
  rewrite (bind_Returned get_request _ st' st' (request st') eq_refl).
  rewrite Hpath, Hvalid. cbn [negb]. by rewrite andb_false_r.
Qed.

Lemma remove_slash_target_passes_witness :
  RemoveSlashMiddleware.process_response (django:=Example.site)
    Example.not_found (Example.get "/en-US/about" "/about" AnonymousUser)
  = (Returned Example.not_found,
     Example.get "/en-US/about" "/about" AnonymousUser).
Proof.
  exact (remove_slash_target_passes (django:=Example.site)
           Example.not_found Example.not_found
           (Example.get "/en-US/about/" "/about/" AnonymousUser)
           (Example.get "/en-US/about" "/about" AnonymousUser)
           eq_refl eq_refl).
Defined.

(** ** The id of an old-style group path *)

(** X14.  [OldGroupRedirectionMiddleware] never looks at the id of an
    old-style path: two requests for [/group/<id>-<url>] and
    [/group/<id'>-<url>], alike in query string and database, get the
    same outcome for the same response, whatever the two ids. *)
Theorem old_group_redirection_ignores_id {django : Django}
    (response : HttpResponse) (st st' : State) (id id' url : string) :
  old_group_path (path_info (request st)) id url →
  old_group_path (path_info (request st')) id' url →
  GET (request st) = GET (request st') →
  META (request st) = META (request st') →
  database st = database st' →
  (OldGroupRedirectionMiddleware.process_response response st).1
  = (OldGroupRedirectionMiddleware.process_response response st').1.
Proof.
  intros Hpath%match_old_group_url_spec Hpath'%match_old_group_url_spec
    Hget Hmeta Hdb.
  unfold OldGroupRedirectionMiddleware.process_response.
  rewrite (bind_Returned get_request _ st st (request st) eq_refl).
  rewrite (bind_Returned get_request _ st' st' (request st') eq_refl).
  cbv zeta. rewrite Hpath, Hpath'. case_bool_decide as H404; [|done].
  rewrite (bind_Returned (Group_filter_url_exists url) _ st st _ eq_refl).
  rewrite (bind_Returned (Group_filter_url_exists url) _ st' st' _ eq_refl).
  rewrite Hdb. destruct (existsb _ _); [|done].
  unfold reverse_url. destruct (reverse "group" [url]) as [canonical|].
  2:{ by rewrite !(bind_Raised (raise (NoReverseMatch "group")) _ _ _ _ eq_refl). }
  rewrite !(bind_Returned (mret canonical) _ _ _ canonical eq_refl).
  destruct (add_query_string_cases st canonical)
    as [[Hg Hrun] | [(Hg & qs & Hqs & Hrun) | (Hg & Hqs & Hrun)]];
    destruct (add_query_string_cases st' canonical)
      as [[Hg' Hrun'] | [(Hg' & qs' & Hqs' & Hrun') | (Hg' & Hqs' & Hrun')]];
    try congruence;
    first [ rewrite (bind_Returned _ _ _ _ _ Hrun), (bind_Returned _ _ _ _ _ Hrun')
          | rewrite (bind_Raised _ _ _ _ _ Hrun), (bind_Raised _ _ _ _ _ Hrun') ];
    try done.
  unfold mret, M_ret. cbn [fst]. congruence.
Qed.

Lemma old_group_redirection_ignores_id_witness :
  (OldGroupRedirectionMiddleware.process_response (django:=Example.site)
     Example.not_found
     (Example.get "/en-US/group/7-rust" "/group/7-rust" AnonymousUser)).1
  = (OldGroupRedirectionMiddleware.process_response (django:=Example.site)
       Example.not_found
       (Example.get "/en-US/group/4096-rust" "/group/4096-rust" AnonymousUser)).1.
Proof.
  apply (old_group_redirection_ignores_id (django:=Example.site)
           Example.not_found
           (Example.get "/en-US/group/7-rust" "/group/7-rust" AnonymousUser)
           (Example.get "/en-US/group/4096-rust" "/group/4096-rust" AnonymousUser)
           "7" "4096" "rust");
    by repeat split.
Defined.
